(** * chatmate signaling server (server.js): presence registry, room index,
      message relays, delayed removal and periodic sweep.

    The three module-level JavaScript [Map]s of server.js are embedded as
    insertion-ordered association lists, the [Set]s they hold as
    insertion-ordered lists, [new Date()] as an integer number of
    milliseconds handed to the handler, and [uuidv4()] as a string handed to
    the handler.  Every socket.io handler becomes a function from the state
    to the new state and the list of emissions it performs, in order.
    [console.log] output is not modelled. *)

From Stdlib Require Import String List ZArith Bool Lia.
Import ListNotations.
Open Scope string_scope.
Open Scope list_scope.
Open Scope Z_scope.

(** ** JavaScript [Map] with string keys, in insertion order *)

Section JsMap.
Context {V : Type}.

Definition JsMap := list (string * V).

(** [m.get(k)] *)
Fixpoint mget (k : string) (m : list (string * V)) : option V :=
  match m with
  | [] => None
  | (k', v) :: r => if String.eqb k k' then Some v else mget k r
  end.

(** [m.has(k)] *)
Definition mhas (k : string) (m : list (string * V)) : bool :=
  match mget k m with Some _ => true | None => false end.

(** [m.set(k, v)]: an existing key keeps its position, a new key goes
    last. *)
Fixpoint mset (k : string) (v : V) (m : list (string * V))
  : list (string * V) :=
  match m with
  | [] => [(k, v)]
  | (k', v') :: r =>
      if String.eqb k k' then (k, v) :: r else (k', v') :: mset k v r
  end.

(** [m.delete(k)] *)
Fixpoint mdel (k : string) (m : list (string * V)) : list (string * V) :=
  match m with
  | [] => []
  | (k', v') :: r =>
      if String.eqb k k' then mdel k r else (k', v') :: mdel k r
  end.

(** [Array.from(m.keys())], [Array.from(m.values())], [m.size] *)
Definition mkeys (m : list (string * V)) : list string := map fst m.
Definition mvalues (m : list (string * V)) : list V := map snd m.
Definition msize (m : list (string * V)) : nat := length m.
End JsMap.

Arguments JsMap V : clear implicits.

(** ** JavaScript [Set] of strings, in insertion order *)

Definition JsSet := list string.

(** [s.has(x)] *)
Definition smem (x : string) (s : JsSet) : bool := existsb (String.eqb x) s.

(** [s.add(x)] *)
Definition sadd (x : string) (s : JsSet) : JsSet :=
  if smem x s then s else s ++ [x].

(** [s.delete(x)] *)
Definition sdel (x : string) (s : JsSet) : JsSet :=
  filter (fun y => negb (String.eqb x y)) s.

(** [s.size === 0] *)
Definition sempty (s : JsSet) : bool :=
  match s with [] => true | _ => false end.

(** The set stored under [k], or the empty set when the key is absent. *)
Definition members (k : string) (m : JsMap JsSet) : JsSet :=
  match mget k m with Some s => s | None => [] end.

(** [if (!m.has(k)) m.set(k, new Set()); m.get(k).add(x);] *)
Definition add_to_set (k x : string) (m : JsMap JsSet) : JsMap JsSet :=
  let m1 := if mhas k m then m else mset k [] m in
  match mget k m1 with
  | Some s => mset k (sadd x s) m1
  | None => m1
  end.

(** [if (m.has(k)) { m.get(k).delete(x);
                     if (m.get(k).size === 0) m.delete(k); }] *)
Definition remove_pruning (k x : string) (m : JsMap JsSet) : JsMap JsSet :=
  match mget k m with
  | Some s =>
      let s' := sdel x s in
      if sempty s' then mdel k m else mset k s' m
  | None => m
  end.

(** [if (m.has(k)) m.get(k).delete(x);] *)
Definition remove_keeping (k x : string) (m : JsMap JsSet) : JsMap JsSet :=
  match mget k m with
  | Some s => mset k (sdel x s) m
  | None => m
  end.

(** [a || b] where [a] is a string or undefined: the empty string is
    falsy. *)
Definition js_or (a : option string) (b : string) : string :=
  match a with
  | Some s => if String.eqb s "" then b else s
  | None => b
  end.

(** ** Data *)

(** The user object built by the register-user handler. *)
Record User := mkUser {
  id : string;
  name : string;
  socketId : string;
  lastSeen : Z;
  isOnline : bool
}.

(** The projection sent in user-list and by GET /users. *)
Record UserInfo := mkUserInfo {
  info_id : string;
  info_name : string;
  info_isOnline : bool;
  info_lastSeen : Z
}.

(** Payload of register-user: [{userId?, name?}]. *)
Record UserData := mkUserData {
  userId : option string;
  reqName : option string
}.

(** Payload of signal: [{to, type, ...}]; [sig_rest] stands for the other,
    uninterpreted fields. *)
Record SignalData := mkSignalData {
  sig_to : string;
  sig_type : string;
  sig_rest : string
}.

(** Payload of chat-message: [{recipientId, content, type?}]. *)
Record MessageData := mkMessageData {
  recipientId : string;
  content : string;
  msgType : option string
}.

(** Payload of typing: [{recipientId, isTyping}]. *)
Record TypingData := mkTypingData {
  typ_recipientId : string;
  typ_isTyping : bool
}.

(** The envelope built by the chat-message handler. *)
Record Message := mkMessage {
  msg_id : string;
  msg_senderId : string;
  msg_senderName : string;
  msg_recipientId : string;
  msg_content : string;
  msg_timestamp : Z;
  msg_type : string;
  msg_deliveryStatus : string
}.

(** Where an emission is addressed. *)
Inductive Target :=
| ToSocket (c : string)                (* socket.emit(...) on socket c *)
| ToRoom (room : string)               (* io.to(room).emit(...) *)
| ToRoomExcept (room c : string)       (* socket.to(room).emit(...) on socket c *)
| ToAll.                               (* io.emit(...) *)

(** The events the server emits, with their payloads.  [SignalErrorCaught]
    is the signal-error of the [catch] branch of the signal listener,
    [{error: error.message, originalSignal: signalData}], and [MessageError]
    the message-error of the [catch] branch of the chat-message listener. *)
Inductive Payload :=
| UserRegistered (uid uname personalRoom : string)
| UserList (l : list UserInfo)
| UserJoinedRoom (uid uname : option string) (roomId : string)
| UserLeftRoom (uid uname : option string) (roomId : string)
| SignalMsg (d : SignalData) (from fromName : string) (timestamp : Z)
| SignalError (error targetUserId : string) (originalSignal : SignalData)
| ChatMsg (m : Message)
| MessageDelivered (messageId deliveredTo : string) (timestamp : Z)
| MessageOffline (messageId recipient : string) (timestamp : Z)
| TypingMsg (uid uname : string) (isTyping : bool) (timestamp : Z)
| SignalErrorCaught (error : string) (originalSignal : option SignalData)
| MessageError (error : string) (originalMessage : option MessageData).

(** What a handler does towards the outside, in the order it does it. *)
Inductive Out :=
| Emit (t : Target) (p : Payload)
| AckJoin (c : string) (success : bool) (roomId : string)  (* callback({success, roomId}) *)
| AckLeave (c : string) (success : bool)                   (* callback({success}) *)
| HttpUsers (l : list UserInfo)                            (* res.json(onlineUsers) *)
| HttpHealth (nusers nrooms : nat) (timestamp : Z).        (* res.json({status:'ok', ...}) *)

(** The server state.  [users], [rooms] and [userRooms] are the three maps of
    server.js; [timers] holds the pending [setTimeout] callbacks of the
    disconnect handler (due time and captured [socket.id]); [sockets],
    [closed] and [adapter] are socket.io's side: the connected sockets, the
    ids of sockets that have disconnected (an id is never reused), and the
    adapter's room table which [socket.join], [socket.leave] and
    [socket.to(...)] / [io.to(...)] work on. *)
Record State := mkState {
  users : JsMap User;          (* socketId -> user info *)
  rooms : JsMap JsSet;         (* roomId -> Set of socketIds *)
  userRooms : JsMap JsSet;     (* userId -> Set of roomIds *)
  timers : list (Z * string);
  sockets : JsSet;
  closed : JsSet;
  adapter : JsMap JsSet
}.

Definition init : State := mkState [] [] [] [] [] [] [].

(** ** The handlers of server.js *)

(** [user => ({id, name, isOnline: user.isOnline, lastSeen})], the projection
    of [broadcastUserList] and of the initial user-list. *)
Definition user_info (u : User) : UserInfo :=
  mkUserInfo (id u) (name u) (isOnline u) (lastSeen u).

(** [function broadcastUserList()] *)
Definition broadcastUserList (us : JsMap User) : Out :=
  Emit ToAll (UserList (map user_info (mvalues us))).

(** [app.get('/users', ...)]: every value of [users], with
    [isOnline: true] written into each element. *)
Definition get_users (s : State) : State * list Out :=
  let onlineUsers :=
    map (fun u => mkUserInfo (id u) (name u) true (lastSeen u))
        (mvalues (users s)) in
  (s, [HttpUsers onlineUsers]).

(** [app.get('/health', ...)] *)
Definition get_health (now : Z) (s : State) : State * list Out :=
  (s, [HttpHealth (msize (users s)) (msize (rooms s)) now]).

(** [io.on('connection', ...)]: socket.io adds the socket to the room named
    by its own id; the handler body sends the initial user-list. *)
Definition connection (c : string) (s : State) : State * list Out :=
  (mkState (users s) (rooms s) (userRooms s) (timers s)
           (sadd c (sockets s)) (closed s) (add_to_set c c (adapter s)),
   [Emit (ToSocket c) (UserList (map user_info (mvalues (users s))))]).

(** [socket.on('register-user', ...)] *)
Definition register_user (c : string) (userData : UserData) (uuid : string)
    (now : Z) (s : State) : State * list Out :=
  let user :=
    mkUser (js_or (userId userData) uuid)
           (js_or (reqName userData)
                  (String.append "User_" (substring 0 6 c)))
           c now true in
  let users' := mset c user (users s) in
  let personalRoom := String.append "user_" (id user) in
  let adapter' := add_to_set personalRoom c (adapter s) in
  let rooms' := add_to_set personalRoom c (rooms s) in
  let userRooms' := add_to_set (id user) personalRoom (userRooms s) in
  (mkState users' rooms' userRooms' (timers s)
           (sockets s) (closed s) adapter',
   [Emit (ToSocket c) (UserRegistered (id user) (name user) personalRoom);
    broadcastUserList users']).

(** [socket.on('join-room', ...)]; [cb] tells whether the client passed an
    acknowledgement callback.  Nothing in the [try] block throws, so the
    [catch] branch has no counterpart. *)
Definition join_room (c roomId : string) (cb : bool) (s : State)
    : State * list Out :=
  let adapter' := add_to_set roomId c (adapter s) in
  let rooms' := add_to_set roomId c (rooms s) in
  let user := mget c (users s) in
  let userRooms' :=
    match user with
    | Some u => add_to_set (id u) roomId (userRooms s)
    | None => userRooms s
    end in
  (mkState (users s) rooms' userRooms' (timers s)
           (sockets s) (closed s) adapter',
   (if cb then [AckJoin c true roomId] else [])
   ++ [Emit (ToRoomExcept roomId c)
            (UserJoinedRoom (option_map id user) (option_map name user)
                            roomId)]).

(** [socket.on('leave-room', ...)] *)
Definition leave_room (c roomId : string) (cb : bool) (s : State)
    : State * list Out :=
  let adapter' := remove_pruning roomId c (adapter s) in
  let rooms' := remove_pruning roomId c (rooms s) in
  let user := mget c (users s) in
  let userRooms' :=
    match user with
    | Some u => remove_keeping (id u) roomId (userRooms s)
    | None => userRooms s
    end in
  (mkState (users s) rooms' userRooms' (timers s)
           (sockets s) (closed s) adapter',
   (if cb then [AckLeave c true] else [])
   ++ [Emit (ToRoomExcept roomId c)
            (UserLeftRoom (option_map id user) (option_map name user)
                          roomId)]).

(** [Array.from(users.values()).find(u => u.id === target)] *)
Definition find_user (target : string) (us : JsMap User) : option User :=
  find (fun u => String.eqb (id u) target) (mvalues us).

(** [socket.on('signal', ...)], the [try] block for a payload of the shape
    above, in which nothing throws.  The [catch] branch, reached with a
    missing payload, is in [signal_listener]; likewise [chat_listener] for
    chat-message.  The [catch] branch of typing only logs. *)
Definition signal (c : string) (signalData : SignalData) (now : Z)
    (s : State) : State * list Out :=
  match mget c (users s) with
  | None => (s, [])
  | Some user =>
      match find_user (sig_to signalData) (users s) with
      | Some targetUser =>
          (s, [Emit (ToRoom (socketId targetUser))
                    (SignalMsg signalData (id user) (name user) now)])
      | None =>
          (s, [Emit (ToSocket c)
                    (SignalError "User not found or offline"
                                 (sig_to signalData) signalData)])
      end
  end.

(** [socket.on('chat-message', ...)]; [now] and [now'] are the two clock
    readings of the handler (envelope, then confirmation or offline
    notice). *)
Definition chat_message (c : string) (messageData : MessageData)
    (uuid : string) (now now' : Z) (s : State) : State * list Out :=
  match mget c (users s) with
  | None => (s, [])
  | Some user =>
      let message :=
        mkMessage uuid (id user) (name user) (recipientId messageData)
                  (content messageData) now
                  (js_or (msgType messageData) "text") "sent" in
      match find_user (recipientId messageData) (users s) with
      | Some targetUser =>
          (s, [Emit (ToRoom (socketId targetUser)) (ChatMsg message);
               Emit (ToSocket c)
                    (MessageDelivered (msg_id message) (id targetUser) now')])
      | None =>
          (s, [Emit (ToSocket c)
                    (MessageOffline (msg_id message)
                                    (recipientId messageData) now')])
      end
  end.

(** [socket.on('typing', ...)] *)
Definition typing (c : string) (typingData : TypingData) (now : Z)
    (s : State) : State * list Out :=
  match mget c (users s) with
  | None => (s, [])
  | Some user =>
      match find_user (typ_recipientId typingData) (users s) with
      | Some targetUser =>
          (s, [Emit (ToRoom (socketId targetUser))
                    (TypingMsg (id user) (name user)
                               (typ_isTyping typingData) now)])
      | None => (s, [])
      end
  end.

(** The [for (const roomId of userRooms.get(user.id))] loop of the disconnect
    handler: the room index and the notifications emitted so far. *)
Fixpoint disconnect_loop (c : string) (u : User) (rs : list string)
    (rms : JsMap JsSet) (outs : list Out) : JsMap JsSet * list Out :=
  match rs with
  | [] => (rms, outs)
  | roomId :: rest =>
      disconnect_loop c u rest (remove_pruning roomId c rms)
        (outs ++ [Emit (ToRoomExcept roomId c)
                       (UserLeftRoom (Some (id u)) (Some (name u)) roomId)])
  end.

(** The delay of the [setTimeout] in the disconnect handler. *)
Definition grace_delay : Z := 5000.

(** What socket.io does to a socket before its 'disconnect' listeners run:
    it leaves every room and is no longer connected. *)
Definition transport_close (c : string) (s : State) : State :=
  mkState (users s) (rooms s) (userRooms s) (timers s)
          (sdel c (sockets s)) (sadd c (closed s))
          (fold_left (fun a k => remove_pruning k c a)
                     (mkeys (adapter s)) (adapter s)).

(** [socket.on('disconnect', ...)] *)
Definition disconnect (c : string) (now : Z) (s : State)
    : State * list Out :=
  match mget c (users s) with
  | Some user =>
      let user' := mkUser (id user) (name user) (socketId user) now false in
      let users' := mset c user' (users s) in
      let '(rooms', userRooms', outs) :=
        match mget (id user) (userRooms s) with
        | Some rs =>
            let '(rms, outs) := disconnect_loop c user' rs (rooms s) [] in
            (rms, mdel (id user) (userRooms s), outs)
        | None => (rooms s, userRooms s, [])
        end in
      (mkState users' rooms' userRooms'
               (timers s ++ [(now + grace_delay, c)])
               (sockets s) (closed s) (adapter s),
       outs)
  | None => (s, [])
  end.

(** The callback handed to [setTimeout] by the disconnect handler of socket
    [c]: [users.delete(socket.id); broadcastUserList();]. *)
Definition timeout (c : string) (s : State) : State * list Out :=
  let users' := mdel c (users s) in
  (mkState users' (rooms s) (userRooms s)
           (filter (fun t => negb (String.eqb (snd t) c)) (timers s))
           (sockets s) (closed s) (adapter s),
   [broadcastUserList users']).

(** [const inactiveThreshold = 5 * 60 * 1000] *)
Definition inactiveThreshold : Z := 5 * 60 * 1000.

(** [!user.isOnline && (now - user.lastSeen) > inactiveThreshold] *)
Definition stale (now : Z) (u : User) : bool :=
  negb (isOnline u) && (inactiveThreshold <? now - lastSeen u).

(** The [for (const [socketId, user] of users.entries())] loop of the
    periodic cleanup, over the entries still to visit. *)
Fixpoint sweep_loop (now : Z) (entries : list (string * User))
    (us : JsMap User) (ur : JsMap JsSet) : JsMap User * JsMap JsSet :=
  match entries with
  | [] => (us, ur)
  | (sid, user) :: rest =>
      if stale now user
      then sweep_loop now rest (mdel sid us) (mdel (id user) ur)
      else sweep_loop now rest us ur
  end.

(** The body of the [setInterval] callback. *)
Definition sweep (now : Z) (s : State) : State * list Out :=
  let '(us, ur) := sweep_loop now (users s) (users s) (userRooms s) in
  (mkState us (rooms s) ur (timers s) (sockets s) (closed s) (adapter s),
   []).

(** ** Runs of the server *)

Inductive Event :=
| Connection (c : string)
| RegisterUser (c : string) (userData : UserData) (uuid : string) (now : Z)
| JoinRoom (c roomId : string) (cb : bool)
| LeaveRoom (c roomId : string) (cb : bool)
| Signal (c : string) (signalData : SignalData) (now : Z)
| ChatMessage (c : string) (messageData : MessageData) (uuid : string)
              (now now' : Z)
| Typing (c : string) (typingData : TypingData) (now : Z)
| Disconnect (c : string) (now : Z)
| Timeout (c : string) (now : Z)
| Sweep (now : Z)
| GetUsers
| GetHealth (now : Z).

Definition handle (e : Event) (s : State) : State * list Out :=
  match e with
  | Connection c => connection c s
  | RegisterUser c d uuid now => register_user c d uuid now s
  | JoinRoom c r cb => join_room c r cb s
  | LeaveRoom c r cb => leave_room c r cb s
  | Signal c d now => signal c d now s
  | ChatMessage c d uuid now now' => chat_message c d uuid now now' s
  | Typing c d now => typing c d now s
  | Disconnect c now => disconnect c now (transport_close c s)
  | Timeout c _ => timeout c s
  | Sweep now => sweep now s
  | GetUsers => get_users s
  | GetHealth now => get_health now s
  end.

(** Whether the runtime can deliver the event in state [s]: a socket id is
    new when its connection opens, a socket's listeners only run while it is
    connected, and a timer only fires once it is due. *)
Definition enabled (e : Event) (s : State) : bool :=
  match e with
  | Connection c => negb (smem c (sockets s)) && negb (smem c (closed s))
  | RegisterUser c _ _ _ | JoinRoom c _ _ | LeaveRoom c _ _
  | Signal c _ _ | ChatMessage c _ _ _ _ | Typing c _ _
  | Disconnect c _ => smem c (sockets s)
  | Timeout c now =>
      existsb (fun t => String.eqb (snd t) c && (fst t <=? now)) (timers s)
  | Sweep _ | GetUsers | GetHealth _ => true
  end.

(** The handlers applied one after the other; the emissions of the run, in
    order. *)
Fixpoint run (evs : list Event) (s : State) : State * list Out :=
  match evs with
  | [] => (s, [])
  | e :: rest =>
      let '(s1, o1) := handle e s in
      let '(s2, o2) := run rest s1 in
      (s2, o1 ++ o2)
  end.

(** The same, for runs the runtime can produce and that in addition satisfy
    [guard] at every event: [None] as soon as an event is not deliverable. *)
Fixpoint exec (guard : Event -> State -> bool) (evs : list Event)
    (s : State) : option (State * list Out) :=
  match evs with
  | [] => Some (s, [])
  | e :: rest =>
      if enabled e s && guard e s then
        let '(s1, o1) := handle e s in
        match exec guard rest s1 with
        | Some (s2, o2) => Some (s2, o1 ++ o2)
        | None => None
        end
      else None
  end.

Definition any_event (e : Event) (s : State) : bool := true.

(** The sockets an emission reaches, by socket.io's rules: [socket.emit]
    reaches that socket, [io.to(room)] the sockets in the room,
    [socket.to(room)] the sockets in the room other than the emitting one,
    [io.emit] every connected socket. *)
Definition recipients (s : State) (t : Target) : list string :=
  match t with
  | ToSocket c => [c]
  | ToRoom r => members r (adapter s)
  | ToRoomExcept r c => sdel c (members r (adapter s))
  | ToAll => sockets s
  end.

(** ** Notions used to state the properties *)

(** Number of registry entries that are online and carry logical id [u]. *)
Definition live_with_id (u : string) (s : State) : nat :=
  length (filter (fun x => isOnline x && String.eqb (id x) u)
                 (mvalues (users s))).

(** Number of registry entries that are online and belong to socket [c]. *)
Definition live_on_socket (c : string) (s : State) : nat :=
  length (filter (fun x => isOnline x && String.eqb (socketId x) c)
                 (mvalues (users s))).

(** One register-user call: the socket, the payload, the value [uuidv4()]
    would return, and the clock. *)
Record RegOp := mkRegOp {
  reg_socket : string;
  reg_data : UserData;
  reg_uuid : string;
  reg_now : Z
}.

Definition reg_event (r : RegOp) : Event :=
  RegisterUser (reg_socket r) (reg_data r) (reg_uuid r) (reg_now r).

(** Socket [c] is in the member set of room [R] of the room index. *)
Definition in_room (c R : string) (s : State) : bool :=
  smem c (members R (rooms s)).

(** Room [R] is in the room set of logical id [u] of the reverse index. *)
Definition in_user_rooms (R u : string) (s : State) : bool :=
  smem R (members u (userRooms s)).

(** Symmetry of the two indices, for every registry entry. *)
Definition room_symmetric (s : State) : Prop :=
  forall c U R,
    mget c (users s) = Some U -> in_room c R s = in_user_rooms R (id U) s.

(** Symmetry of the two indices, for the entries that are online. *)
Definition room_symmetric_online (s : State) : Prop :=
  forall c U R,
    mget c (users s) = Some U -> isOnline U = true ->
    in_room c R s = in_user_rooms R (id U) s.

(** Some online registry entry carries logical id [u]. *)
Definition id_online (u : string) (s : State) : bool :=
  existsb (fun x => isOnline x && String.eqb (id x) u) (mvalues (users s)).

(** The client discipline under which the two indices stay symmetric: a
    socket registers once, with a logical id no online entry carries, and
    joins rooms only once registered; the periodic sweep does not run. *)
Definition tidy (e : Event) (s : State) : bool :=
  match e with
  | RegisterUser c d uuid _ =>
      negb (mhas c (users s)) && negb (id_online (js_or (userId d) uuid) s)
  | JoinRoom c _ _ => mhas c (users s)
  | Sweep _ => false
  | _ => true
  end.

(** No room of the index has an empty member set. *)
Definition no_empty_room (m : JsMap JsSet) : Prop :=
  forall R st, mget R m = Some st -> st <> [].

(** The user-list [l] shows logical id [u] with [isOnline: true]. *)
Definition shown_online (u : string) (l : list UserInfo) : bool :=
  existsb (fun i => info_isOnline i && String.eqb (info_id i) u) l.

(** Socket [x] is reached by a user-joined-room emission among [outs], the
    recipients being taken in state [s]. *)
Definition gets_join_notice (s : State) (x : string) (outs : list Out)
    : bool :=
  existsb (fun o =>
             match o with
             | Emit t (UserJoinedRoom _ _ _) => smem x (recipients s t)
             | _ => false
             end) outs.

(** Every entry is stored under the socket id it records, and no socket id
    is stored twice. *)
Definition keyed_by_socket (us : JsMap User) : Prop :=
  NoDup (mkeys us) /\ forall k U, In (k, U) us -> socketId U = k.

(** What holds of the state along the runs that satisfy [tidy]: the two
    indices are symmetric for online entries; only sockets with an online
    entry are in rooms; online entries have distinct logical ids; room sets
    exist only for logical ids of online entries; an online entry belongs to
    a connected socket and an offline one to a closed socket; a closed socket
    is not connected; pending removals are for closed sockets. *)
Definition tidy_inv (s : State) : Prop :=
  room_symmetric_online s /\
  (forall c R, in_room c R s = true ->
     exists U, mget c (users s) = Some U /\ isOnline U = true) /\
  (forall c1 c2 U1 U2,
     mget c1 (users s) = Some U1 -> mget c2 (users s) = Some U2 ->
     isOnline U1 = true -> isOnline U2 = true -> id U1 = id U2 -> c1 = c2) /\
  (forall u R, in_user_rooms R u s = true ->
     exists c U, mget c (users s) = Some U /\ isOnline U = true /\ id U = u) /\
  (forall c U, mget c (users s) = Some U ->
     if isOnline U then smem c (sockets s) = true
     else smem c (closed s) = true) /\
  (forall c, smem c (closed s) = true -> smem c (sockets s) = false) /\
  (forall t, In t (timers s) -> smem (snd t) (closed s) = true).

(** ** Concrete runs *)

(** Socket c1 registers as u1 and joins room R, alone. *)
Definition one_member_room : State :=
  fst (run [Connection "c1"; RegisterUser "c1" (mkUserData (Some "u1") None)
                                          "uuid-1" 10;
            JoinRoom "c1" "R" true] init).

(** Two sockets register with the same logical id u1. *)
Definition same_id_twice : list RegOp :=
  [mkRegOp "c1" (mkUserData (Some "u1") (Some "Ann")) "uuid-1" 10;
   mkRegOp "c2" (mkUserData (Some "u1") (Some "Ann")) "uuid-2" 20].

(** Socket c1 registers as u and disconnects at time 0; socket c2 registers
    with the same logical id u one second later; the delayed removal of c1's
    entry has not run. *)
Definition stale_shared_id : State :=
  fst (run [Connection "c1";
            RegisterUser "c1" (mkUserData (Some "u") None) "uuid-1" 0;
            Disconnect "c1" 0;
            Connection "c2";
            RegisterUser "c2" (mkUserData (Some "u") None) "uuid-2" 1000]
           init).

(** Socket c1 is registered as u. *)
Definition one_user : State :=
  fst (run [Connection "c1";
            RegisterUser "c1" (mkUserData (Some "u") None) "uuid-1" 0;
            Connection "c2"]
           init).

(** Ann (socket c1, id u1) and Bob (socket c2, id u2) register; Bob's socket
    disconnects at time 100. *)
Definition bob_gone_trace : list Event :=
  [Connection "c1"; Connection "c2";
   RegisterUser "c1" (mkUserData (Some "u1") (Some "Ann")) "uuid-1" 10;
   RegisterUser "c2" (mkUserData (Some "u2") (Some "Bob")) "uuid-2" 20;
   Disconnect "c2" 100].

Definition bob_gone : State := fst (run bob_gone_trace init).

(** After that, Bob reconnects on socket c3 and registers as u2 again, one
    second after the disconnect. *)
Definition bob_back_trace : list Event :=
  bob_gone_trace
  ++ [Connection "c3";
      RegisterUser "c3" (mkUserData (Some "u2") (Some "Bob")) "uuid-3" 1100].

Definition bob_back : State := fst (run bob_back_trace init).

(** Ann and Bob are both registered and online. *)
Definition ann_and_bob : State :=
  fst (run [Connection "c1"; Connection "c2";
            RegisterUser "c1" (mkUserData (Some "u1") (Some "Ann"))
                         "uuid-1" 10;
            RegisterUser "c2" (mkUserData (Some "u2") (Some "Bob"))
                         "uuid-2" 20] init).

(** Sockets A, B and C register as a, b and c and all join room R. *)
Definition abc_in_room_trace : list Event :=
  [Connection "A"; Connection "B"; Connection "C";
   RegisterUser "A" (mkUserData (Some "a") None) "uuid-1" 10;
   RegisterUser "B" (mkUserData (Some "b") None) "uuid-2" 20;
   RegisterUser "C" (mkUserData (Some "c") None) "uuid-3" 30;
   JoinRoom "A" "R" true; JoinRoom "B" "R" true; JoinRoom "C" "R" true].

Definition abc_in_room : State := fst (run abc_in_room_trace init).

(** After A, B and C have joined R: B leaves R, C disconnects and its entry
    is removed after the delay. *)
Definition tidy_trace : list Event :=
  abc_in_room_trace
  ++ [LeaveRoom "B" "R" true; Disconnect "C" 50; Timeout "C" 5050].

(** A socket joins room R before it registers. *)
Definition join_then_register : list Event :=
  [Connection "c1"; JoinRoom "c1" "R" true;
   RegisterUser "c1" (mkUserData (Some "u1") None) "uuid-1" 10].

(** Two sockets register with the same logical id; the first joins R. *)
Definition shared_id_join : list Event :=
  [Connection "c1"; Connection "c2";
   RegisterUser "c1" (mkUserData (Some "u") None) "uuid-1" 10;
   RegisterUser "c2" (mkUserData (Some "u") None) "uuid-2" 20;
   JoinRoom "c1" "R" true].

(** One socket registers twice, with different logical ids. *)
Definition register_twice : list Event :=
  [Connection "c1";
   RegisterUser "c1" (mkUserData (Some "u1") None) "uuid-1" 10;
   RegisterUser "c1" (mkUserData (Some "u2") None) "uuid-2" 20].

(** ** Further notions *)

(** The user-left-room notifications for the rooms [rs], in order. *)
Definition left_notices (c : string) (u : User) (rs : list string)
    : list Out :=
  map (fun roomId =>
         Emit (ToRoomExcept roomId c)
              (UserLeftRoom (Some (id u)) (Some (name u)) roomId)) rs.

(** No two registry entries carry the same logical id. *)
Definition unique_ids (us : JsMap User) : Prop :=
  forall k1 U1 k2 U2,
    In (k1, U1) us -> In (k2, U2) us -> id U1 = id U2 ->
    (k1, U1) = (k2, U2).

(** The [isOnline] flag follows the connection: an online entry belongs to a
    connected socket, an offline one to a closed socket, a closed socket is
    not connected, and the pending removals are for closed sockets, one per
    socket at most. *)
Definition conn_inv (s : State) : Prop :=
  (forall c U, mget c (users s) = Some U ->
     if isOnline U then smem c (sockets s) = true
     else smem c (closed s) = true) /\
  (forall c, smem c (closed s) = true -> smem c (sockets s) = false) /\
  (forall t, In t (timers s) -> smem (snd t) (closed s) = true) /\
  NoDup (map snd (timers s)).

(** The room index and socket.io's room table agree: a socket that socket.io
    has in room [R] is in the index of [R], unless [R] is the room socket.io
    names after the socket itself; a connected socket that is in the index
    of [R] is in socket.io's room [R]; socket.io's rooms hold connected
    sockets only; the index holds sockets that are or were connected. *)
Definition mirror_inv (s : State) : Prop :=
  (forall c R, smem c (members R (adapter s)) = true ->
     in_room c R s = true \/ R = c) /\
  (forall c R, in_room c R s = true -> smem c (sockets s) = true ->
     smem c (members R (adapter s)) = true) /\
  (forall c R, smem c (members R (adapter s)) = true ->
     smem c (sockets s) = true) /\
  (forall c R, in_room c R s = true ->
     smem c (sockets s) = true \/ smem c (closed s) = true).

(** The whole listener of [socket.on('signal', ...)], [try] and [catch]:
    [None] is a missing payload ([undefined] or [null]).  The sender is
    looked up first and an unregistered sender returns; with a registered
    sender, reading [signalData.type] of a missing payload throws, and the
    [catch] branch sends signal-error with [msg], the message of that
    exception, and the payload as it came. *)
Definition signal_listener (c : string) (payload : option SignalData)
    (msg : string) (now : Z) (s : State) : State * list Out :=
  match payload with
  | Some signalData => signal c signalData now s
  | None =>
      match mget c (users s) with
      | None => (s, [])
      | Some _ => (s, [Emit (ToSocket c) (SignalErrorCaught msg None)])
      end
  end.

(** The whole listener of [socket.on('chat-message', ...)]: with a
    registered sender, reading [messageData.recipientId] of a missing
    payload throws, and the [catch] branch sends message-error with the
    message of the exception and the payload as it came. *)
Definition chat_listener (c : string) (payload : option MessageData)
    (uuid msg : string) (now now' : Z) (s : State) : State * list Out :=
  match payload with
  | Some messageData => chat_message c messageData uuid now now' s
  | None =>
      match mget c (users s) with
      | None => (s, [])
      | Some _ => (s, [Emit (ToSocket c) (MessageError msg None)])
      end
  end.

(** A user-list element without its [isOnline] field. *)
Definition info_core (i : UserInfo) : string * string * Z :=
  (info_id i, info_name i, info_lastSeen i).

(** An old offline entry, a fresher offline entry and an online entry. *)
Definition three_ages : State :=
  mkState [("c1", mkUser "u1" "Ann" "c1" 0 false);
           ("c2", mkUser "u2" "Bob" "c2" 200000 false);
           ("c3", mkUser "u3" "Cy" "c3" 0 true)]
          [("user_u3", ["c3"])]
          [("u1", []); ("u3", ["user_u3"])]
          [] ["c3"] ["c1"; "c2"] [("c3", ["c3"]); ("user_u3", ["c3"])].

(** * Properties *)

(** ** Facts about the maps and sets *)

Ltac eqb_cases :=
  repeat match goal with
  | |- context [String.eqb ?a ?b] =>
      destruct (String.eqb_spec a b); subst; simpl; try congruence
  | H : context [String.eqb ?a ?b] |- _ =>
      destruct (String.eqb_spec a b); subst; simpl in H; try congruence
  end.

Section MapFacts.
Context {V : Type}.
Implicit Types (m : JsMap V) (k : string) (v : V).

Lemma mget_mset k k' v m :
  mget k' (mset k v m) = if String.eqb k' k then Some v else mget k' m.
Proof.
  induction m as [|[k0 v0] r IH]; simpl.
  - eqb_cases.
  - destruct (String.eqb_spec k k0); subst; simpl.
    + eqb_cases.
    + rewrite IH. eqb_cases.
Qed.

Lemma mget_mdel k k' m :
  mget k' (mdel k m) = if String.eqb k' k then None else mget k' m.
Proof.
  induction m as [|[k0 v0] r IH]; simpl.
  - eqb_cases.
  - destruct (String.eqb_spec k k0); subst; simpl.
    + rewrite IH. eqb_cases.
    + rewrite IH. eqb_cases.
Qed.

Lemma mset_same k v m : mget k m = Some v -> mset k v m = m.
Proof.
  induction m as [|[k0 v0] r IH]; simpl; [discriminate|].
  destruct (String.eqb_spec k k0); subst.
  - intros [= ->]. reflexivity.
  - intros H. rewrite IH by assumption. reflexivity.
Qed.

Lemma mget_In k v m : mget k m = Some v -> In (k, v) m.
Proof.
  induction m as [|[k0 v0] r IH]; simpl; [discriminate|].
  destruct (String.eqb_spec k k0); subst.
  - intros [= ->]. now left.
  - intros H. right. auto.
Qed.

Lemma mget_None_keys k m : mget k m = None <-> ~ In k (mkeys m).
Proof.
  induction m as [|[k0 v0] r IH]; simpl.
  - tauto.
  - destruct (String.eqb_spec k k0); subst.
    + split; [discriminate | intros H; exfalso; apply H; now left].
    + rewrite IH. split; [intros H [E|E]; congruence | tauto].
Qed.

Lemma In_mget k v m : NoDup (mkeys m) -> In (k, v) m -> mget k m = Some v.
Proof.
  induction m as [|[k0 v0] r IH]; simpl; [tauto|].
  intros ND [E|E].
  - inversion E; subst. now rewrite String.eqb_refl.
  - inversion ND as [|? ? Hn ND']; subst.
    destruct (String.eqb_spec k k0); subst.
    + exfalso. apply Hn. change (In (fst (k0, v)) (map fst r)).
      now apply in_map.
    + auto.
Qed.

Lemma mkeys_mset k v m k' :
  In k' (mkeys (mset k v m)) <-> k' = k \/ In k' (mkeys m).
Proof.
  induction m as [|[k0 v0] r IH]; simpl.
  - intuition.
  - destruct (String.eqb_spec k k0); subst; simpl.
    + intuition.
    + rewrite IH. intuition.
Qed.

Lemma NoDup_mset k v m : NoDup (mkeys m) -> NoDup (mkeys (mset k v m)).
Proof.
  induction m as [|[k0 v0] r IH]; simpl; intros ND.
  - constructor; [tauto | constructor].
  - inversion ND as [|? ? Hn ND']; subst.
    destruct (String.eqb_spec k k0); subst; simpl.
    + now constructor.
    + constructor; [|auto].
      intros H. apply mkeys_mset in H. destruct H; [congruence | tauto].
Qed.

Lemma mkeys_mdel k m k' :
  In k' (mkeys (mdel k m)) <-> k' <> k /\ In k' (mkeys m).
Proof.
  induction m as [|[k0 v0] r IH]; simpl.
  - tauto.
  - destruct (String.eqb_spec k k0); subst; simpl.
    + rewrite IH. intuition congruence.
    + rewrite IH. intuition congruence.
Qed.

Lemma NoDup_mdel k m : NoDup (mkeys m) -> NoDup (mkeys (mdel k m)).
Proof.
  induction m as [|[k0 v0] r IH]; simpl; intros ND; [constructor|].
  inversion ND as [|? ? Hn ND']; subst.
  destruct (String.eqb_spec k k0); subst; simpl; [auto|].
  constructor; [|auto].
  intros H. apply mkeys_mdel in H. tauto.
Qed.

Lemma mhas_mget k m : mhas k m = true <-> exists v, mget k m = Some v.
Proof.
  unfold mhas. destruct (mget k m).
  - split; eauto.
  - split; [discriminate | intros [v H]; discriminate].
Qed.
End MapFacts.

Lemma smem_sadd x y s : smem y (sadd x s) = String.eqb y x || smem y s.
Proof.
  unfold sadd. destruct (smem x s) eqn:E.
  - destruct (String.eqb_spec y x); subst; simpl; [now rewrite E | reflexivity].
  - unfold smem. rewrite existsb_app. simpl.
    rewrite orb_false_r. apply orb_comm.
Qed.

Lemma smem_sdel x y s : smem y (sdel x s) = negb (String.eqb y x) && smem y s.
Proof.
  unfold smem, sdel. induction s as [|a r IH]; simpl.
  - now rewrite andb_false_r.
  - destruct (String.eqb_spec x a); subst; simpl.
    + rewrite IH. destruct (String.eqb_spec y a); subst; simpl; reflexivity.
    + rewrite IH. destruct (String.eqb_spec y a); subst; simpl.
      * destruct (String.eqb_spec a x); subst; simpl; congruence.
      * reflexivity.
Qed.

Lemma smem_true_iff x s : smem x s = true <-> In x s.
Proof.
  unfold smem. rewrite existsb_exists. split.
  - intros [y [Hy E]]. apply String.eqb_eq in E. now subst.
  - intros H. exists x. split; [assumption | apply String.eqb_refl].
Qed.

Lemma sadd_idem x s : sadd x (sadd x s) = sadd x s.
Proof.
  unfold sadd at 1. rewrite smem_sadd, String.eqb_refl. reflexivity.
Qed.

Lemma sdel_idem x s : sdel x (sdel x s) = sdel x s.
Proof.
  unfold sdel. induction s as [|a r IH]; simpl; [reflexivity|].
  destruct (String.eqb_spec x a); subst; simpl; [assumption|].
  destruct (String.eqb_spec x a); subst; simpl; congruence.
Qed.

Lemma sadd_nonempty x s : sadd x s <> [].
Proof.
  unfold sadd. destruct (smem x s) eqn:E.
  - destruct s; [discriminate | discriminate].
  - destruct s; discriminate.
Qed.

Lemma sempty_true s : sempty s = true <-> s = [].
Proof. destruct s; simpl; split; congruence. Qed.

Lemma sdel_nil_smem x y s : sdel x s = [] -> smem y s = true -> y = x.
Proof.
  intros E H. destruct (String.eqb_spec y x) as [|N]; [assumption|].
  assert (F : smem y (sdel x s) = true).
  { rewrite smem_sdel, H. apply String.eqb_neq in N. now rewrite N. }
  rewrite E in F. discriminate.
Qed.

Lemma mget_add_to_set k k' x (m : JsMap JsSet) :
  mget k' (add_to_set k x m) =
  if String.eqb k' k then Some (sadd x (members k m)) else mget k' m.
Proof.
  unfold add_to_set, members, mhas.
  destruct (mget k m) as [s|] eqn:E.
  - rewrite E, mget_mset. reflexivity.
  - rewrite mget_mset, String.eqb_refl, !mget_mset.
    destruct (String.eqb k' k); reflexivity.
Qed.

Lemma members_add_to_set k k' x (m : JsMap JsSet) :
  members k' (add_to_set k x m) =
  if String.eqb k' k then sadd x (members k m) else members k' m.
Proof.
  unfold members at 1. rewrite mget_add_to_set.
  destruct (String.eqb k' k); reflexivity.
Qed.

Lemma mget_remove_pruning k k' x (m : JsMap JsSet) :
  mget k' (remove_pruning k x m) =
  if String.eqb k' k then
    match mget k m with
    | Some s => if sempty (sdel x s) then None else Some (sdel x s)
    | None => None
    end
  else mget k' m.
Proof.
  unfold remove_pruning. destruct (mget k m) as [s|] eqn:E.
  - destruct (sempty (sdel x s)).
    + rewrite mget_mdel. reflexivity.
    + rewrite mget_mset. reflexivity.
  - destruct (String.eqb_spec k' k); subst; [assumption | reflexivity].
Qed.

Lemma smem_remove_pruning k k' x y (m : JsMap JsSet) :
  smem y (members k' (remove_pruning k x m)) =
  smem y (members k' m) && negb (String.eqb k' k && String.eqb y x).
Proof.
  unfold members. rewrite mget_remove_pruning.
  destruct (String.eqb_spec k' k); subst; simpl.
  - destruct (mget k m) as [s|]; [|reflexivity].
    destruct (sempty (sdel x s)) eqn:E.
    + apply sempty_true in E. simpl.
      destruct (smem y s) eqn:Hy; [|reflexivity].
      rewrite (sdel_nil_smem _ _ _ E Hy), String.eqb_refl. reflexivity.
    + rewrite smem_sdel. apply andb_comm.
  - now rewrite andb_true_r.
Qed.

Lemma mget_remove_keeping k k' x (m : JsMap JsSet) :
  mget k' (remove_keeping k x m) =
  if String.eqb k' k then option_map (sdel x) (mget k m) else mget k' m.
Proof.
  unfold remove_keeping. destruct (mget k m) as [s|] eqn:E.
  - rewrite mget_mset. reflexivity.
  - destruct (String.eqb_spec k' k); subst; [now rewrite E | reflexivity].
Qed.

Lemma smem_remove_keeping k k' x y (m : JsMap JsSet) :
  smem y (members k' (remove_keeping k x m)) =
  smem y (members k' m) && negb (String.eqb k' k && String.eqb y x).
Proof.
  unfold members. rewrite mget_remove_keeping.
  destruct (String.eqb_spec k' k); subst; simpl.
  - destruct (mget k m) as [s|]; [|reflexivity].
    simpl. rewrite smem_sdel. apply andb_comm.
  - now rewrite andb_true_r.
Qed.

Lemma add_to_set_idem k x (m : JsMap JsSet) :
  add_to_set k x (add_to_set k x m) = add_to_set k x m.
Proof.
  set (m' := add_to_set k x m).
  assert (G : mget k m' = Some (sadd x (members k m))).
  { unfold m'. now rewrite mget_add_to_set, String.eqb_refl. }
  unfold add_to_set at 1. unfold mhas. rewrite G, G, sadd_idem.
  now apply mset_same.
Qed.

Lemma remove_pruning_idem k x (m : JsMap JsSet) :
  remove_pruning k x (remove_pruning k x m) = remove_pruning k x m.
Proof.
  set (m' := remove_pruning k x m).
  assert (G : mget k m' =
              match mget k m with
              | Some s => if sempty (sdel x s) then None else Some (sdel x s)
              | None => None
              end).
  { unfold m'. now rewrite mget_remove_pruning, String.eqb_refl. }
  unfold remove_pruning at 1. rewrite G.
  destruct (mget k m) as [s|]; [|reflexivity].
  destruct (sempty (sdel x s)) eqn:E; [reflexivity|].
  cbv zeta. rewrite sdel_idem, E. apply mset_same. exact G.
Qed.

Lemma remove_keeping_idem k x (m : JsMap JsSet) :
  remove_keeping k x (remove_keeping k x m) = remove_keeping k x m.
Proof.
  set (m' := remove_keeping k x m).
  assert (G : mget k m' = option_map (sdel x) (mget k m)).
  { unfold m'. now rewrite mget_remove_keeping, String.eqb_refl. }
  unfold remove_keeping at 1. rewrite G.
  destruct (mget k m) as [s|]; [|reflexivity].
  simpl. rewrite sdel_idem. apply mset_same. exact G.
Qed.

(** ** Idempotence of join-room and leave-room *)

(** C9: handling join-room twice for the same socket and room leaves the same
    state (room index, reverse index and all the rest) as handling it once,
    and the second call acknowledges with [success: true] when a callback
    was passed, its emissions being those of the first call; likewise for
    leave-room, in every state, so also for a room the socket never
    joined. *)
Theorem join_leave_idempotent (s : State) (c roomId : string) (cb : bool) :
  let j1 := handle (JoinRoom c roomId cb) s in
  let j2 := handle (JoinRoom c roomId cb) (fst j1) in
  let l1 := handle (LeaveRoom c roomId cb) s in
  let l2 := handle (LeaveRoom c roomId cb) (fst l1) in
  let user := mget c (users s) in
  fst j2 = fst j1 /\
  rooms (fst j2) = rooms (fst j1) /\
  userRooms (fst j2) = userRooms (fst j1) /\
  snd j2 =
    (if cb then [AckJoin c true roomId] else [])
    ++ [Emit (ToRoomExcept roomId c)
             (UserJoinedRoom (option_map id user) (option_map name user)
                             roomId)] /\
  fst l2 = fst l1 /\
  rooms (fst l2) = rooms (fst l1) /\
  userRooms (fst l2) = userRooms (fst l1) /\
  snd l2 =
    (if cb then [AckLeave c true] else [])
    ++ [Emit (ToRoomExcept roomId c)
             (UserLeftRoom (option_map id user) (option_map name user)
                           roomId)].
Proof.
  cbv zeta. cbv beta iota delta [handle].
  assert (J : fst (join_room c roomId cb (fst (join_room c roomId cb s)))
              = fst (join_room c roomId cb s)).
  { unfold join_room; simpl. rewrite !add_to_set_idem.
    destruct (mget c (users s)) as [u|]; [rewrite add_to_set_idem|];
      reflexivity. }
  assert (L : fst (leave_room c roomId cb (fst (leave_room c roomId cb s)))
              = fst (leave_room c roomId cb s)).
  { unfold leave_room; simpl. rewrite !remove_pruning_idem.
    destruct (mget c (users s)) as [u|]; [rewrite remove_keeping_idem|];
      reflexivity. }
  repeat apply conj.
  - exact J.
  - now rewrite J.
  - now rewrite J.
  - reflexivity.
  - exact L.
  - now rewrite L.
  - now rewrite L.
  - reflexivity.
Qed.

(** ** Runs *)

Lemma run_cons_fst e evs s :
  fst (run (e :: evs) s) = fst (run evs (fst (handle e s))).
Proof.
  simpl. destruct (handle e s) as [s1 o1]. simpl.
  destruct (run evs s1) as [s2 o2]. reflexivity.
Qed.

Lemma run_app_fst evs1 evs2 s :
  fst (run (evs1 ++ evs2) s) = fst (run evs2 (fst (run evs1 s))).
Proof.
  revert s. induction evs1 as [|e r IH]; intros s; [reflexivity|].
  rewrite <- app_comm_cons, !run_cons_fst. apply IH.
Qed.

(** ** Empty rooms are pruned *)

Lemma no_empty_add_to_set k x m :
  no_empty_room m -> no_empty_room (add_to_set k x m).
Proof.
  intros H R st. rewrite mget_add_to_set.
  destruct (String.eqb R k).
  - intros [= <-]. apply sadd_nonempty.
  - apply H.
Qed.

Lemma no_empty_remove_pruning k x m :
  no_empty_room m -> no_empty_room (remove_pruning k x m).
Proof.
  intros H R st. rewrite mget_remove_pruning.
  destruct (String.eqb R k).
  - destruct (mget k m) as [s0|]; [|discriminate].
    destruct (sempty (sdel x s0)) eqn:E; [discriminate|].
    intros [= <-] N. rewrite N in E. discriminate.
  - apply H.
Qed.

Lemma disconnect_loop_no_empty c u rs :
  forall m outs, no_empty_room m ->
                 no_empty_room (fst (disconnect_loop c u rs m outs)).
Proof.
  induction rs as [|r rest IH]; intros m outs H; simpl; [assumption|].
  apply IH. now apply no_empty_remove_pruning.
Qed.

Lemma rooms_disconnect c now s :
  rooms (fst (disconnect c now s)) =
  match mget c (users s) with
  | Some user =>
      match mget (id user) (userRooms s) with
      | Some rs =>
          fst (disconnect_loop c
                 (mkUser (id user) (name user) (socketId user) now false)
                 rs (rooms s) [])
      | None => rooms s
      end
  | None => rooms s
  end.
Proof.
  unfold disconnect. destruct (mget c (users s)) as [user|]; [|reflexivity].
  destruct (mget (id user) (userRooms s)) as [rs|]; [|reflexivity].
  destruct (disconnect_loop _ _ rs (rooms s) []) as [rms outs]. reflexivity.
Qed.

Lemma rooms_sweep now s : rooms (fst (sweep now s)) = rooms s.
Proof.
  unfold sweep. destruct (sweep_loop _ _ _ _). reflexivity.
Qed.

Lemma handle_no_empty e s :
  no_empty_room (rooms s) -> no_empty_room (rooms (fst (handle e s))).
Proof.
  intros H. destruct e; simpl; try assumption.
  - now apply no_empty_add_to_set.
  - now apply no_empty_add_to_set.
  - now apply no_empty_remove_pruning.
  - unfold signal. destruct (mget c (users s)); [|assumption].
    destruct (find_user _ _); assumption.
  - unfold chat_message. destruct (mget c (users s)); [|assumption].
    destruct (find_user _ _); assumption.
  - unfold typing. destruct (mget c (users s)); [|assumption].
    destruct (find_user _ _); assumption.
  - rewrite rooms_disconnect. simpl.
    destruct (mget c (users s)) as [user|]; [|assumption].
    destruct (mget (id user) (userRooms s)) as [rs|]; [|assumption].
    now apply disconnect_loop_no_empty.
  - now rewrite rooms_sweep.
Qed.

Lemma run_no_empty evs :
  forall s, no_empty_room (rooms s) ->
            no_empty_room (rooms (fst (run evs s))).
Proof.
  induction evs as [|e rest IH]; intros s H; [assumption|].
  rewrite run_cons_fst. apply IH. now apply handle_no_empty.
Qed.

Lemma disconnect_loop_keeps_None c u R rs :
  forall m outs, mget R m = None ->
                 mget R (fst (disconnect_loop c u rs m outs)) = None.
Proof.
  induction rs as [|r rest IH]; intros m outs H; simpl; [assumption|].
  apply IH. rewrite mget_remove_pruning.
  destruct (String.eqb_spec R r); subst; [now rewrite H | assumption].
Qed.

Lemma disconnect_loop_prunes c u R st rs :
  In R rs -> sdel c st = [] ->
  forall m outs, mget R m = Some st ->
                 mget R (fst (disconnect_loop c u rs m outs)) = None.
Proof.
  intros HI E. induction rs as [|r rest IH]; intros m outs H; simpl.
  - destruct HI.
  - destruct (String.eqb_spec R r) as [->|N].
    + apply disconnect_loop_keeps_None.
      rewrite mget_remove_pruning, String.eqb_refl, H, E. reflexivity.
    + destruct HI as [->|HI]; [congruence|].
      apply IH; [assumption|].
      rewrite mget_remove_pruning. apply String.eqb_neq in N.
      now rewrite N.
Qed.

(** C5: after any sequence of events from the start of the server no room
    of the index has an empty member set; in particular a leave-room that
    removes the last member of a room removes the room, and so does a
    disconnect for every room of the user's room set whose last member was
    the disconnecting socket. *)
Theorem empty_rooms_pruned :
  (forall evs, no_empty_room (rooms (fst (run evs init)))) /\
  (forall s c R cb st,
      mget R (rooms s) = Some st -> sdel c st = [] ->
      mget R (rooms (fst (handle (LeaveRoom c R cb) s))) = None) /\
  (forall s c now U rs R st,
      mget c (users s) = Some U ->
      mget (id U) (userRooms s) = Some rs -> In R rs ->
      mget R (rooms s) = Some st -> sdel c st = [] ->
      mget R (rooms (fst (handle (Disconnect c now) s))) = None).
Proof.
  repeat apply conj.
  - intros evs. apply run_no_empty. intros R st. discriminate.
  - intros s c R cb st H E. simpl.
    rewrite mget_remove_pruning, String.eqb_refl, H, E. reflexivity.
  - intros s c now U rs R st HU HR HI H E. simpl.
    rewrite rooms_disconnect. simpl. rewrite HU, HR.
    now apply disconnect_loop_prunes with (st := st).
Qed.

Lemma empty_rooms_pruned_witness :
  mget "R" (rooms (fst (handle (LeaveRoom "c1" "R" true) one_member_room)))
    = None /\
  mget "R" (rooms (fst (handle (Disconnect "c1" 20) one_member_room)))
    = None.
Proof.
  split.
  - apply (proj1 (proj2 empty_rooms_pruned)) with (st := ["c1"]);
      reflexivity.
  - apply (proj2 (proj2 empty_rooms_pruned))
      with (U := mkUser "u1" "User_c1" "c1" 10 true)
           (rs := ["user_u1"; "R"]) (st := ["c1"]);
      try reflexivity.
    simpl. tauto.
Defined.

(** ** The registry is keyed by socket *)

Lemma In_mset {V} k (v : V) m k' v' :
  In (k', v') (mset k v m) -> (k', v') = (k, v) \/ In (k', v') m.
Proof.
  induction m as [|[k0 v0] r IH]; simpl.
  - intuition.
  - destruct (String.eqb_spec k k0); subst; simpl; intuition.
Qed.

Lemma keyed_register c d uuid now s :
  keyed_by_socket (users s) ->
  keyed_by_socket (users (fst (register_user c d uuid now s))).
Proof.
  intros [ND K]. simpl. split.
  - now apply NoDup_mset.
  - intros k U H. apply In_mset in H. destruct H as [[= -> ->]|H].
    + reflexivity.
    + now apply K.
Qed.

Lemma keyed_run_registers rs :
  forall s, keyed_by_socket (users s) ->
            keyed_by_socket (users (fst (run (map reg_event rs) s))).
Proof.
  induction rs as [|r rest IH]; intros s H; [assumption|].
  change (map reg_event (r :: rest))
    with (reg_event r :: map reg_event rest).
  rewrite run_cons_fst. apply IH. now apply keyed_register.
Qed.

Lemma no_entry_for_absent_socket c (us : JsMap User) :
  ~ In c (mkeys us) ->
  (forall k U, In (k, U) us -> socketId U = k) ->
  filter (fun x => isOnline x && String.eqb (socketId x) c) (mvalues us)
    = [].
Proof.
  induction us as [|[k U] r IH]; simpl; intros N K; [reflexivity|].
  rewrite (K k U) by now left.
  destruct (String.eqb_spec k c) as [->|Hn].
  - exfalso. apply N. now left.
  - rewrite andb_false_r. apply IH; [tauto | intros; apply K; now right].
Qed.

Lemma at_most_one_entry_per_socket c (us : JsMap User) :
  keyed_by_socket us ->
  (length (filter (fun x => isOnline x && String.eqb (socketId x) c)
                  (mvalues us)) <= 1)%nat.
Proof.
  intros [ND K]. induction us as [|[k U] r IH]; simpl; [lia|].
  inversion ND as [|? ? Hn ND']; subst.
  destruct (isOnline U && String.eqb (socketId U) c) eqn:E.
  - apply andb_prop in E. destruct E as [_ E]. apply String.eqb_eq in E.
    rewrite (K k U) in E by now left. subst k.
    rewrite no_entry_for_absent_socket;
      [simpl; lia | assumption | intros; apply K; now right].
  - apply IH; [assumption | intros; apply K; now right].
Qed.

(** C1 (as amended): after any sequence of register-user calls at most one
    live registry entry exists per socket id; a later registration on the
    same socket replaces that socket's entry, and a later registration with
    the same logical id on a different socket leaves the earlier entry in
    place, so that both are live under the one logical id. *)
Theorem registry_unique_per_socket :
  (forall rs c,
      (live_on_socket c (fst (run (map reg_event rs) init)) <= 1)%nat) /\
  (forall s c d1 u1 t1 d2 u2 t2,
      let s' := fst (run [RegisterUser c d1 u1 t1;
                          RegisterUser c d2 u2 t2] s) in
      mget c (users s') =
      Some (mkUser (js_or (userId d2) u2)
                   (js_or (reqName d2)
                          (String.append "User_" (substring 0 6 c)))
                   c t2 true)) /\
  (forall s c1 d1 u1 t1 c2 d2 u2 t2,
      c1 <> c2 ->
      js_or (userId d1) u1 = js_or (userId d2) u2 ->
      let s' := fst (run [RegisterUser c1 d1 u1 t1;
                          RegisterUser c2 d2 u2 t2] s) in
      exists U1 U2,
        mget c1 (users s') = Some U1 /\ mget c2 (users s') = Some U2 /\
        isOnline U1 = true /\ isOnline U2 = true /\
        id U1 = js_or (userId d1) u1 /\ id U2 = js_or (userId d1) u1).
Proof.
  repeat apply conj.
  - intros rs c. unfold live_on_socket.
    apply at_most_one_entry_per_socket. apply keyed_run_registers.
    split; [constructor | intros k U []].
  - intros s c d1 u1 t1 d2 u2 t2. simpl.
    now rewrite mget_mset, String.eqb_refl.
  - intros s c1 d1 u1 t1 c2 d2 u2 t2 N E. simpl.
    eexists. eexists. rewrite !mget_mset, !String.eqb_refl.
    apply String.eqb_neq in N. rewrite N.
    repeat apply conj; try reflexivity. simpl. now rewrite E.
Qed.

Lemma registry_unique_per_socket_witness :
  "c1" <> "c2" /\
  exists U1 U2,
    mget "c1" (users (fst (run (map reg_event same_id_twice) init)))
      = Some U1 /\
    mget "c2" (users (fst (run (map reg_event same_id_twice) init)))
      = Some U2 /\
    isOnline U1 = true /\ isOnline U2 = true /\
    id U1 = "u1" /\ id U2 = "u1".
Proof.
  split; [discriminate|].
  apply (proj2 (proj2 registry_unique_per_socket)
           init "c1" (mkUserData (Some "u1") (Some "Ann")) "uuid-1" 10
                "c2" (mkUserData (Some "u1") (Some "Ann")) "uuid-2" 20);
    [discriminate | reflexivity].
Defined.

(** C1 (as stated) fails: after two sockets have registered with the same
    logical id, two live entries carry that id. *)
Lemma two_live_entries_one_id :
  (exists s outs,
      exec any_event
           (Connection "c1" :: Connection "c2" :: map reg_event same_id_twice)
           init = Some (s, outs) /\
      live_with_id "u1" s = 2%nat) /\
  ~ (forall rs u,
        (live_with_id u (fst (run (map reg_event rs) init)) <= 1)%nat).
Proof.
  split.
  - eexists. eexists. split; reflexivity.
  - intros H. specialize (H same_id_twice "u1").
    vm_compute in H. lia.
Qed.

(** ** The periodic sweep *)

Lemma sweep_loop_keeps_None now entries :
  forall us ur,
    (forall k, mget k us = None ->
               mget k (fst (sweep_loop now entries us ur)) = None) /\
    (forall k, mget k ur = None ->
               mget k (snd (sweep_loop now entries us ur)) = None).
Proof.
  induction entries as [|[sid user] rest IH]; intros us ur; simpl.
  - split; auto.
  - destruct (stale now user).
    + destruct (IH (mdel sid us) (mdel (id user) ur)) as [A B].
      split; intros k H; [apply A | apply B]; rewrite mget_mdel;
        destruct (String.eqb k _); auto.
    + apply IH.
Qed.

Lemma sweep_loop_removes now c U entries :
  In (c, U) entries -> stale now U = true ->
  forall us ur,
    mget c (fst (sweep_loop now entries us ur)) = None /\
    mget (id U) (snd (sweep_loop now entries us ur)) = None.
Proof.
  intros HI St. induction entries as [|[sid user] rest IH]; intros us ur.
  - destruct HI.
  - simpl. destruct HI as [[= -> ->]|HI].
    + rewrite St.
      destruct (sweep_loop_keeps_None now rest (mdel c us) (mdel (id U) ur))
        as [A B].
      split; [apply A | apply B]; now rewrite mget_mdel, String.eqb_refl.
    + destruct (stale now user); now apply IH.
Qed.

Lemma sweep_loop_keeps now c2 entries :
  (forall k V, In (k, V) entries -> stale now V = true -> k <> c2) ->
  forall us ur, mget c2 (fst (sweep_loop now entries us ur)) = mget c2 us.
Proof.
  induction entries as [|[sid user] rest IH]; intros K us ur; simpl.
  - reflexivity.
  - destruct (stale now user) eqn:St.
    + rewrite IH by (intros k V H; apply K; now right).
      rewrite mget_mdel.
      assert (N : sid <> c2) by (apply (K sid user); [now left | assumption]).
      destruct (String.eqb_spec c2 sid); [congruence | reflexivity].
    + apply IH. intros k V H. apply K. now right.
Qed.

Lemma stale_offline now U : stale now U = true -> isOnline U = false.
Proof.
  unfold stale. destruct (isOnline U); [discriminate | reflexivity].
Qed.

(** C10: when the sweep finds a stale entry (offline, last seen longer ago
    than the inactivity threshold) under socket [c] with logical id [u], it
    removes that entry and deletes the whole reverse-index entry of [u];
    every online entry stays in the registry and the room index is left as
    it was, so an online entry with the same logical id [u] under another
    socket loses its room set. *)
Theorem sweep_erases_room_set_of_shared_id
    (s : State) (now : Z) (c : string) (U : User) :
  NoDup (mkeys (users s)) ->
  mget c (users s) = Some U ->
  isOnline U = false ->
  inactiveThreshold < now - lastSeen U ->
  let s' := fst (handle (Sweep now) s) in
  mget c (users s') = None /\
  mget (id U) (userRooms s') = None /\
  rooms s' = rooms s /\
  forall c2 U2,
    mget c2 (users s) = Some U2 -> isOnline U2 = true -> id U2 = id U ->
    mget c2 (users s') = Some U2 /\ mget (id U2) (userRooms s') = None.
Proof.
  intros ND HU Off Old. cbv zeta.
  assert (St : stale now U = true).
  { unfold stale. rewrite Off. simpl. now apply Z.ltb_lt. }
  simpl. unfold sweep.
  destruct (sweep_loop_removes now c U (users s) (mget_In _ _ _ HU) St
              (users s) (userRooms s)) as [A B].
  pose proof (sweep_loop_keeps now) as K.
  destruct (sweep_loop now (users s) (users s) (userRooms s)) as [us ur]
    eqn:E.
  simpl in *. repeat apply conj; try assumption; try reflexivity.
  - intros c2 U2 H2 On2 Eid. split; [|now rewrite Eid].
    specialize (K c2 (users s)). rewrite <- H2.
    replace us with (fst (sweep_loop now (users s) (users s) (userRooms s)))
      by now rewrite E.
    apply K. intros k V HI StV ->.
    apply (In_mget _ _ _ ND) in HI. rewrite H2 in HI.
    injection HI as <-. apply stale_offline in StV. congruence.
Qed.

Lemma sweep_erases_room_set_of_shared_id_witness :
  mget "u" (userRooms stale_shared_id) = Some ["user_u"] /\
  mget "c2" (users (fst (handle (Sweep 400000) stale_shared_id)))
    = Some (mkUser "u" "User_c2" "c2" 1000 true) /\
  in_room "c2" "user_u" (fst (handle (Sweep 400000) stale_shared_id))
    = true /\
  mget "u" (userRooms (fst (handle (Sweep 400000) stale_shared_id))) = None.
Proof.
  assert (ND : NoDup (mkeys (users stale_shared_id))).
  { vm_compute. repeat constructor; simpl; intuition discriminate. }
  destruct (sweep_erases_room_set_of_shared_id
              stale_shared_id 400000 "c1"
              (mkUser "u" "User_c1" "c1" 0 false)
              ND eq_refl eq_refl eq_refl) as (_ & _ & R & K).
  destruct (K "c2" (mkUser "u" "User_c2" "c2" 1000 true)
              eq_refl eq_refl eq_refl) as [A B].
  repeat apply conj.
  - reflexivity.
  - exact A.
  - unfold in_room. rewrite R. reflexivity.
  - exact B.
Defined.

(** ** Reconnecting within the grace delay *)

Lemma mget_In_values {V} k (v : V) m : mget k m = Some v -> In v (mvalues m).
Proof.
  intros H. apply mget_In in H. unfold mvalues.
  change v with (snd (k, v)). now apply in_map.
Qed.

Lemma shown_online_values (V : User) (us : JsMap User) :
  In V (mvalues us) -> isOnline V = true ->
  shown_online (id V) (map user_info (mvalues us)) = true.
Proof.
  intros HI On. unfold shown_online. apply existsb_exists.
  exists (user_info V). split.
  - now apply in_map.
  - simpl. now rewrite On, String.eqb_refl.
Qed.

Lemma mdel_absent {V} k (m : JsMap V) : mget k m = None -> mdel k m = m.
Proof.
  induction m as [|[k0 v0] r IH]; simpl; [reflexivity|].
  destruct (String.eqb_spec k k0); [discriminate|].
  intros H. now rewrite IH.
Qed.

Lemma disconnect_fst c now s user :
  mget c (users s) = Some user ->
  fst (disconnect c now s) =
  mkState (mset c (mkUser (id user) (name user) (socketId user) now false)
                (users s))
          (fst (disconnect_loop c
                  (mkUser (id user) (name user) (socketId user) now false)
                  (members (id user) (userRooms s)) (rooms s) []))
          (mdel (id user) (userRooms s))
          (timers s ++ [(now + grace_delay, c)])
          (sockets s) (closed s) (adapter s).
Proof.
  intros H. unfold disconnect, members. rewrite H.
  destruct (mget (id user) (userRooms s)) as [rs|] eqn:E.
  - destruct (disconnect_loop _ _ rs (rooms s) []) as [rms outs].
    reflexivity.
  - simpl. now rewrite (mdel_absent _ _ E).
Qed.

Lemma disconnect_fst_unregistered c now s :
  mget c (users s) = None -> fst (disconnect c now s) = s.
Proof. intros H. unfold disconnect. now rewrite H. Qed.

(** C3: a socket [c] registered with logical id [u] disconnects at time [T]
    and a connected socket [c'] registers with the same logical id at time
    [T + D], [D] smaller than the grace delay.  The deletion scheduled by the
    disconnect is then still pending (it is due at [T + grace_delay]); the
    user-list broadcast by the registration shows [u] online; and whenever
    the scheduled deletion runs, it leaves the entry of [c'] as it is: the
    entry is still there, online, with id [u], and the user-list that the
    deletion broadcasts shows [u] online. *)
Theorem grace_window_reconnect
    (s : State) (c c' : string) (U : User) (T D tf : Z)
    (d : UserData) (uuid : string) :
  mget c (users s) = Some U ->
  0 <= D < grace_delay ->
  let s1 := fst (handle (Disconnect c T) s) in
  enabled (RegisterUser c' d uuid (T + D)) s1 = true ->
  js_or (userId d) uuid = id U ->
  let r2 := handle (RegisterUser c' d uuid (T + D)) s1 in
  let r3 := handle (Timeout c tf) (fst r2) in
  (In (T + grace_delay, c) (timers (fst r2)) /\ T + D < T + grace_delay) /\
  (exists U',
      mget c' (users (fst r2)) = Some U' /\
      id U' = id U /\ isOnline U' = true /\
      mget c' (users (fst r3)) = Some U') /\
  (exists l,
      In (Emit ToAll (UserList l)) (snd r2) /\
      shown_online (id U) l = true) /\
  (exists l,
      snd r3 = [Emit ToAll (UserList l)] /\
      shown_online (id U) l = true) /\
  (forall s2 V,
      mget c' (users s2) = Some V ->
      mget c' (users (fst (handle (Timeout c tf) s2))) = Some V).
Proof.
  intros HU HD s1 En Eid r2 r3.
  assert (N : c' <> c).
  { intros ->. unfold s1, handle, enabled in En.
    rewrite (disconnect_fst c T (transport_close c s) U HU) in En.
    simpl in En. rewrite smem_sdel, String.eqb_refl in En. discriminate. }
  assert (Nb : String.eqb c' c = false) by now apply String.eqb_neq.
  set (U' := mkUser (js_or (userId d) uuid)
                    (js_or (reqName d)
                           (String.append "User_" (substring 0 6 c')))
                    c' (T + D) true).
  assert (G2 : mget c' (users (fst r2)) = Some U').
  { unfold r2. simpl. now rewrite mget_mset, String.eqb_refl. }
  assert (G3 : forall s2 V, mget c' (users s2) = Some V ->
                 mget c' (users (fst (handle (Timeout c tf) s2))) = Some V).
  { intros s2 V H. simpl. now rewrite mget_mdel, Nb. }
  repeat apply conj.
  - unfold r2, s1, handle.
    rewrite (disconnect_fst c T (transport_close c s) U HU). simpl.
    apply in_or_app. right. now left.
  - lia.
  - exists U'. repeat apply conj; try assumption; try reflexivity.
    now apply G3.
  - eexists. split.
    + unfold r2. simpl. right. left. reflexivity.
    + rewrite <- Eid. change (js_or (userId d) uuid) with (id U').
      apply shown_online_values; [|reflexivity].
      apply mget_In_values with (k := c').
      now rewrite mget_mset, String.eqb_refl.
  - eexists. split.
    + unfold r3. simpl. reflexivity.
    + rewrite <- Eid. change (js_or (userId d) uuid) with (id U').
      apply shown_online_values; [|reflexivity].
      apply mget_In_values with (k := c').
      rewrite mget_mdel, Nb. exact G2.
  - exact G3.
Qed.

Lemma grace_window_reconnect_witness :
  let s1 := fst (handle (Disconnect "c1" 100) one_user) in
  let r2 := handle (RegisterUser "c2" (mkUserData (Some "u") None)
                                 "uuid-2" (100 + 2000)) s1 in
  let r3 := handle (Timeout "c1" 5100) (fst r2) in
  mget "c2" (users (fst r3)) = Some (mkUser "u" "User_c2" "c2" 2100 true) /\
  enabled (Timeout "c1" 5100) (fst r2) = true.
Proof.
  cbv zeta. split; [|reflexivity].
  assert (HD : 0 <= 2000 < grace_delay) by (unfold grace_delay; lia).
  destruct (grace_window_reconnect
              one_user "c1" "c2" (mkUser "u" "User_c1" "c1" 0 true)
              100 2000 5100 (mkUserData (Some "u") None) "uuid-2"
              eq_refl HD eq_refl eq_refl)
    as (_ & (U' & H2 & _ & _ & H3) & _).
  rewrite H3. vm_compute in H2. injection H2 as <-. reflexivity.
Defined.

(** ** The relays *)

Lemma signal_unknown_target s c d now user :
  mget c (users s) = Some user ->
  find_user (sig_to d) (users s) = None ->
  handle (Signal c d now) s =
  (s, [Emit (ToSocket c)
            (SignalError "User not found or offline" (sig_to d) d)]).
Proof. intros H F. simpl. unfold signal. now rewrite H, F. Qed.

Lemma signal_known_target s c d now user t :
  mget c (users s) = Some user ->
  find_user (sig_to d) (users s) = Some t ->
  handle (Signal c d now) s =
  (s, [Emit (ToRoom (socketId t)) (SignalMsg d (id user) (name user) now)]).
Proof. intros H F. simpl. unfold signal. now rewrite H, F. Qed.

Lemma chat_unknown_target s c d uuid now now' user :
  mget c (users s) = Some user ->
  find_user (recipientId d) (users s) = None ->
  handle (ChatMessage c d uuid now now') s =
  (s, [Emit (ToSocket c) (MessageOffline uuid (recipientId d) now')]).
Proof. intros H F. simpl. unfold chat_message. now rewrite H, F. Qed.

Lemma chat_known_target s c d uuid now now' user t :
  mget c (users s) = Some user ->
  find_user (recipientId d) (users s) = Some t ->
  handle (ChatMessage c d uuid now now') s =
  (s, [Emit (ToRoom (socketId t))
            (ChatMsg (mkMessage uuid (id user) (name user) (recipientId d)
                                (content d) now
                                (js_or (msgType d) "text") "sent"));
       Emit (ToSocket c) (MessageDelivered uuid (id t) now')]).
Proof. intros H F. simpl. unfold chat_message. now rewrite H, F. Qed.

(** C2, where the code departs from it: Bob (u2) has disconnected and his
    entry is offline; Ann signals to u2.  The handler emits the signal to
    Bob's closed socket, which reaches nobody, and sends Ann no
    signal-error.  When Bob has re-registered on a new socket, the signal
    still goes to the closed socket of his older, offline entry. *)
Theorem signal_to_offline_target_unreported :
  exec any_event bob_gone_trace init <> None /\
  mget "c2" (users bob_gone) = Some (mkUser "u2" "Bob" "c2" 100 false) /\
  handle (Signal "c1" (mkSignalData "u2" "offer" "sdp") 200) bob_gone =
    (bob_gone,
     [Emit (ToRoom "c2")
           (SignalMsg (mkSignalData "u2" "offer" "sdp") "u1" "Ann" 200)]) /\
  recipients bob_gone (ToRoom "c2") = [] /\
  exec any_event bob_back_trace init <> None /\
  mget "c3" (users bob_back) = Some (mkUser "u2" "Bob" "c3" 1100 true) /\
  handle (Signal "c1" (mkSignalData "u2" "offer" "sdp") 1200) bob_back =
    (bob_back,
     [Emit (ToRoom "c2")
           (SignalMsg (mkSignalData "u2" "offer" "sdp") "u1" "Ann" 1200)]) /\
  recipients bob_back (ToRoom "c2") = [].
Proof.
  repeat apply conj; try (vm_compute; reflexivity); vm_compute; discriminate.
Qed.

(** The scenario of the specification: Ann and Bob are online, Ann sends
    "hi" to Bob; Bob's socket gets one envelope and Ann one confirmation
    with the same message id. *)
Example chat_between_online_users :
  handle (ChatMessage "c1" (mkMessageData "u2" "hi" None) "m-1" 200 201)
         ann_and_bob =
    (ann_and_bob,
     [Emit (ToRoom "c2")
           (ChatMsg (mkMessage "m-1" "u1" "Ann" "u2" "hi" 200 "text" "sent"));
      Emit (ToSocket "c1") (MessageDelivered "m-1" "u2" 201)]) /\
  recipients ann_and_bob (ToRoom "c2") = ["c2"].
Proof. split; vm_compute; reflexivity. Qed.

(** C6, where the code departs from it: Bob (u2) has disconnected and his
    entry is offline; Ann sends him a chat message.  The handler emits the
    envelope to Bob's closed socket, which reaches nobody, and confirms
    delivery to Ann instead of sending her message-offline.  When Bob has
    re-registered on a new socket, the envelope still goes to the closed
    socket of his older, offline entry. *)
Theorem chat_to_offline_recipient_confirmed :
  exec any_event bob_gone_trace init <> None /\
  mget "c2" (users bob_gone) = Some (mkUser "u2" "Bob" "c2" 100 false) /\
  handle (ChatMessage "c1" (mkMessageData "u2" "hi" None) "m-1" 200 201)
         bob_gone =
    (bob_gone,
     [Emit (ToRoom "c2")
           (ChatMsg (mkMessage "m-1" "u1" "Ann" "u2" "hi" 200 "text" "sent"));
      Emit (ToSocket "c1") (MessageDelivered "m-1" "u2" 201)]) /\
  recipients bob_gone (ToRoom "c2") = [] /\
  exec any_event bob_back_trace init <> None /\
  mget "c3" (users bob_back) = Some (mkUser "u2" "Bob" "c3" 1100 true) /\
  handle (ChatMessage "c1" (mkMessageData "u2" "hi" None) "m-2" 1200 1201)
         bob_back =
    (bob_back,
     [Emit (ToRoom "c2")
           (ChatMsg (mkMessage "m-2" "u1" "Ann" "u2" "hi" 1200 "text" "sent"));
      Emit (ToSocket "c1") (MessageDelivered "m-2" "u2" 1201)]) /\
  recipients bob_back (ToRoom "c2") = [].
Proof.
  repeat apply conj; try (vm_compute; reflexivity); vm_compute; discriminate.
Qed.

(** ** GET /users *)

Lemma get_users_reads_only s : fst (handle GetUsers s) = s.
Proof. reflexivity. Qed.

Lemma get_users_lists_every_entry s c U :
  mget c (users s) = Some U ->
  exists l, snd (handle GetUsers s) = [HttpUsers l] /\
            In (mkUserInfo (id U) (name U) true (lastSeen U)) l.
Proof.
  intros H. eexists. split; [reflexivity|].
  apply in_map with (f := fun u => mkUserInfo (id u) (name u) true (lastSeen u)).
  now apply mget_In_values with (k := c).
Qed.

(** C7, where the code departs from it: the listing changes nothing in the
    state, but with Bob's entry offline after his disconnect it still
    returns Bob, marked [isOnline: true]. *)
Theorem users_listing_includes_offline_entry :
  exec any_event bob_gone_trace init <> None /\
  mget "c2" (users bob_gone) = Some (mkUser "u2" "Bob" "c2" 100 false) /\
  handle GetUsers bob_gone =
    (bob_gone,
     [HttpUsers [mkUserInfo "u1" "Ann" true 10;
                 mkUserInfo "u2" "Bob" true 100]]).
Proof.
  repeat apply conj; try (vm_compute; reflexivity); vm_compute; discriminate.
Qed.

(** ** Joining a room again *)

Lemma add_to_set_member k x (m : JsMap JsSet) :
  smem x (members k m) = true -> add_to_set k x m = m.
Proof.
  unfold members, add_to_set, mhas.
  destruct (mget k m) as [st|] eqn:E; [|discriminate].
  intros H. rewrite E. unfold sadd. rewrite H. now apply mset_same.
Qed.

(** C8 (as amended): when socket [A] is already a member of room [R] (the
    socket is in the member set of [R] and, if it is registered, [R] is in
    the room set of its logical id) and issues join-room for [R] again, the
    membership state stays as it is, room index and reverse index alike, as
    does the registry, and the handler emits user-joined-room for [A] to
    room [R] once more; every other socket that is in the room receives it,
    [A] itself does not. *)
Theorem redundant_join_notifies_again
    (s : State) (A R B : string) (cb : bool) :
  in_room A R s = true ->
  (forall U, mget A (users s) = Some U ->
             in_user_rooms R (id U) s = true) ->
  B <> A ->
  smem B (members R (adapter s)) = true ->
  let r := handle (JoinRoom A R cb) s in
  rooms (fst r) = rooms s /\
  userRooms (fst r) = userRooms s /\
  users (fst r) = users s /\
  In (Emit (ToRoomExcept R A)
           (UserJoinedRoom (option_map id (mget A (users s)))
                           (option_map name (mget A (users s))) R))
     (snd r) /\
  gets_join_notice (fst r) B (snd r) = true /\
  gets_join_notice (fst r) A (snd r) = false.
Proof.
  intros HA HU N HB. cbv zeta. simpl.
  assert (RB : smem B (sdel A (members R (add_to_set R A (adapter s))))
               = true).
  { rewrite smem_sdel, members_add_to_set, String.eqb_refl, smem_sadd, HB.
    apply String.eqb_neq in N. rewrite N. now rewrite orb_true_r. }
  assert (RA : smem A (sdel A (members R (add_to_set R A (adapter s))))
               = false).
  { now rewrite smem_sdel, String.eqb_refl. }
  repeat apply conj.
  - now apply add_to_set_member.
  - destruct (mget A (users s)) as [U|]; [|reflexivity].
    apply add_to_set_member. now apply HU.
  - reflexivity.
  - apply in_or_app. right. now left.
  - unfold gets_join_notice. rewrite existsb_app. simpl.
    rewrite RB. now rewrite orb_true_r.
  - unfold gets_join_notice. rewrite existsb_app. simpl.
    rewrite RA. destruct cb; reflexivity.
Qed.

Lemma redundant_join_notifies_again_witness :
  userRooms (fst (handle (JoinRoom "A" "R" true) abc_in_room))
    = userRooms abc_in_room /\
  gets_join_notice (fst (handle (JoinRoom "A" "R" true) abc_in_room)) "C"
                   (snd (handle (JoinRoom "A" "R" true) abc_in_room))
    = true.
Proof.
  assert (HU : forall U, mget "A" (users abc_in_room) = Some U ->
                         in_user_rooms "R" (id U) abc_in_room = true).
  { intros U H. vm_compute in H. injection H as <-. reflexivity. }
  assert (N : "C" <> "A") by discriminate.
  destruct (redundant_join_notifies_again abc_in_room "A" "R" "C" true
              eq_refl HU N eq_refl) as (_ & H1 & _ & _ & H2 & _).
  split; assumption.
Defined.

(** C8 (as stated) fails: with A, B and C in room R, a second join-room for
    R by A emits user-joined-room to room R, and B and C receive it. *)
Lemma rejoin_reaches_other_members :
  exec any_event abc_in_room_trace init <> None /\
  in_room "A" "R" abc_in_room = true /\
  in_room "B" "R" abc_in_room = true /\
  in_room "C" "R" abc_in_room = true /\
  handle (JoinRoom "A" "R" true) abc_in_room =
    (abc_in_room,
     [AckJoin "A" true "R";
      Emit (ToRoomExcept "R" "A")
           (UserJoinedRoom (Some "a") (Some "User_A") "R")]) /\
  recipients abc_in_room (ToRoomExcept "R" "A") = ["B"; "C"] /\
  gets_join_notice abc_in_room "B"
    (snd (handle (JoinRoom "A" "R" true) abc_in_room)) = true /\
  gets_join_notice abc_in_room "C"
    (snd (handle (JoinRoom "A" "R" true) abc_in_room)) = true.
Proof.
  repeat apply conj; try (vm_compute; reflexivity); vm_compute; discriminate.
Qed.

(** ** Symmetry of the room index and the reverse index *)

Lemma in_room_add k x c R (m : JsMap JsSet) :
  smem c (members R (add_to_set k x m)) =
  (String.eqb R k && String.eqb c x) || smem c (members R m).
Proof.
  rewrite members_add_to_set.
  destruct (String.eqb_spec R k); subst; simpl; [|reflexivity].
  apply smem_sadd.
Qed.

Lemma disconnect_loop_members c u c' R rs :
  forall m outs,
    smem c' (members R (fst (disconnect_loop c u rs m outs))) =
    smem c' (members R m) && negb (String.eqb c' c && smem R rs).
Proof.
  induction rs as [|r rest IH]; intros m outs; simpl.
  - now rewrite andb_false_r, andb_true_r.
  - rewrite IH, smem_remove_pruning.
    destruct (smem c' (members R m)), (String.eqb R r), (String.eqb c' c),
      (smem R rest); reflexivity.
Qed.

Lemma id_online_false u s c U :
  id_online u s = false -> mget c (users s) = Some U ->
  isOnline U = true -> id U <> u.
Proof.
  unfold id_online. intros F H On E.
  assert (T : existsb (fun x => isOnline x && String.eqb (id x) u)
                      (mvalues (users s)) = true).
  { apply existsb_exists. exists U. split.
    - now apply mget_In_values with (k := c).
    - rewrite On, E. simpl. apply String.eqb_refl. }
  congruence.
Qed.

Lemma mhas_false {V} k (m : JsMap V) : mhas k m = false -> mget k m = None.
Proof. unfold mhas. destruct (mget k m); [discriminate | reflexivity]. Qed.

Lemma online_of_connected s c U :
  tidy_inv s -> smem c (sockets s) = true -> mget c (users s) = Some U ->
  isOnline U = true.
Proof.
  intros (_ & _ & _ & _ & Conn & Disj & _) Hc HU.
  specialize (Conn c U HU). destruct (isOnline U); [reflexivity|].
  apply Disj in Conn. congruence.
Qed.

Lemma tidy_inv_init : tidy_inv init.
Proof.
  unfold tidy_inv, room_symmetric_online, in_room, in_user_rooms. simpl.
  repeat apply conj; intros; try discriminate; try reflexivity; tauto.
Qed.

Lemma tidy_inv_connection c s :
  tidy_inv s -> enabled (Connection c) s = true ->
  tidy_inv (fst (handle (Connection c) s)).
Proof.
  intros (Sym & Live & Uniq & Rev & Conn & Disj & Tim) En.
  simpl in En. apply andb_prop in En. destruct En as [E1 E2].
  apply negb_true_iff in E1. apply negb_true_iff in E2.
  unfold tidy_inv. repeat apply conj; try assumption.
  - intros c' U HU. simpl in *. specialize (Conn c' U HU).
    destruct (isOnline U); [|assumption].
    rewrite smem_sadd, Conn. apply orb_true_r.
  - intros c' Hc. simpl in *. rewrite smem_sadd, (Disj c' Hc).
    destruct (String.eqb_spec c' c); subst; [congruence | reflexivity].
Qed.

Lemma tidy_inv_register c d uuid now s :
  tidy_inv s ->
  enabled (RegisterUser c d uuid now) s = true ->
  tidy (RegisterUser c d uuid now) s = true ->
  tidy_inv (fst (handle (RegisterUser c d uuid now) s)).
Proof.
  intros (Sym & Live & Uniq & Rev & Conn & Disj & Tim) En Td.
  simpl in En, Td. apply andb_prop in Td. destruct Td as [T1 T2].
  apply negb_true_iff in T1. apply negb_true_iff in T2.
  apply mhas_false in T1.
  set (u := js_or (userId d) uuid) in *.
  set (pr := String.append "user_" u).
  assert (NoRoom : forall R, in_room c R s = false).
  { intros R. destruct (in_room c R s) eqn:E; [|reflexivity].
    destruct (Live c R E) as (U & HU & _). congruence. }
  assert (NoSet : forall R, in_user_rooms R u s = false).
  { intros R. destruct (in_user_rooms R u s) eqn:E; [|reflexivity].
    destruct (Rev u R E) as (c0 & U & HU & On & Eid).
    exfalso. exact (id_online_false u s c0 U T2 HU On Eid). }
  unfold tidy_inv, room_symmetric_online, in_room, in_user_rooms in *.
  simpl. fold u. fold pr.
  repeat apply conj.
  - intros c' U' R. rewrite mget_mset, !in_room_add.
    destruct (String.eqb_spec c' c) as [->|N].
    + intros [= <-] _. simpl. rewrite !String.eqb_refl, NoRoom, NoSet.
      now rewrite andb_true_r, andb_true_l.
    + intros HU On.
      assert (Nu : String.eqb (id U') u = false).
      { apply String.eqb_neq. exact (id_online_false u s c' U' T2 HU On). }
      rewrite Nu. rewrite andb_false_r, andb_false_l. simpl.
      now apply Sym.
  - intros c' R. rewrite in_room_add, mget_mset.
    destruct (String.eqb_spec c' c) as [->|N].
    + intros _. eexists. split; reflexivity.
    + rewrite andb_false_r. simpl. apply Live.
  - intros c1 c2 U1 U2. rewrite !mget_mset.
    destruct (String.eqb_spec c1 c) as [->|N1];
      destruct (String.eqb_spec c2 c) as [->|N2]; try congruence.
    + intros [= <-] H2 _ On2 E. simpl in E. symmetry in E.
      exfalso. exact (id_online_false u s c2 U2 T2 H2 On2 E).
    + intros H1 [= <-] On1 _ E. simpl in E.
      exfalso. exact (id_online_false u s c1 U1 T2 H1 On1 E).
    + apply Uniq.
  - intros u' R. rewrite in_room_add.
    destruct (String.eqb_spec u' u) as [->|N].
    + intros _. exists c. eexists. rewrite mget_mset, String.eqb_refl.
      repeat split; reflexivity.
    + simpl. intros H. destruct (Rev u' R H) as (c0 & U & HU & On & Eid).
      exists c0, U. rewrite mget_mset.
      destruct (String.eqb_spec c0 c) as [->|N0]; [congruence|].
      repeat split; assumption.
  - intros c' U'. rewrite mget_mset.
    destruct (String.eqb_spec c' c) as [->|N].
    + intros [= <-]. simpl. exact En.
    + apply Conn.
  - exact Disj.
  - exact Tim.
Qed.

Lemma tidy_inv_join c R0 cb s :
  tidy_inv s ->
  enabled (JoinRoom c R0 cb) s = true ->
  tidy (JoinRoom c R0 cb) s = true ->
  tidy_inv (fst (handle (JoinRoom c R0 cb) s)).
Proof.
  intros Inv En Td. simpl in En, Td.
  apply mhas_mget in Td. destruct Td as [U HU].
  pose proof (online_of_connected s c U Inv En HU) as On.
  destruct Inv as (Sym & Live & Uniq & Rev & Conn & Disj & Tim).
  unfold tidy_inv, room_symmetric_online, in_room, in_user_rooms in *.
  simpl. rewrite HU.
  repeat apply conj; try assumption.
  - intros c' U' R HU' On'. rewrite !in_room_add.
    destruct (String.eqb_spec c' c) as [->|N].
    + assert (U' = U) by congruence. subst U'.
      rewrite String.eqb_refl, andb_true_r, andb_true_l.
      f_equal. now apply Sym.
    + assert (Nu : String.eqb (id U') (id U) = false).
      { apply String.eqb_neq. intros E. apply N.
        exact (Uniq c' c U' U HU' HU On' On E). }
      rewrite Nu, andb_false_r, andb_false_l. simpl. now apply Sym.
  - intros c' R. rewrite in_room_add.
    destruct (String.eqb_spec c' c) as [->|N].
    + intros _. exists U. split; assumption.
    + rewrite andb_false_r. simpl. apply Live.
  - intros u' R. rewrite in_room_add.
    destruct (String.eqb_spec u' (id U)) as [->|N].
    + intros _. exists c, U. repeat split; assumption.
    + simpl. apply Rev.
Qed.

Lemma tidy_inv_leave c R0 cb s :
  tidy_inv s ->
  enabled (LeaveRoom c R0 cb) s = true ->
  tidy_inv (fst (handle (LeaveRoom c R0 cb) s)).
Proof.
  intros Inv En. simpl in En.
  pose proof (online_of_connected s c) as OnC.
  specialize (fun U => OnC U Inv En).
  destruct Inv as (Sym & Live & Uniq & Rev & Conn & Disj & Tim).
  unfold tidy_inv, room_symmetric_online, in_room, in_user_rooms in *.
  simpl.
  destruct (mget c (users s)) as [U|] eqn:HU.
  - pose proof (OnC U eq_refl) as On.
    repeat apply conj; try assumption.
    + intros c' U' R HU' On'.
      rewrite smem_remove_pruning, smem_remove_keeping.
      destruct (String.eqb_spec c' c) as [->|N].
      * assert (U' = U) by congruence. subst U'.
        rewrite String.eqb_refl, andb_true_r, andb_true_l.
        f_equal. now apply Sym.
      * assert (Nu : String.eqb (id U') (id U) = false).
        { apply String.eqb_neq. intros E. apply N.
          exact (Uniq c' c U' U HU' HU On' On E). }
        rewrite Nu, andb_false_r, andb_false_l. simpl.
        rewrite !andb_true_r. now apply Sym.
    + intros c' R. rewrite smem_remove_pruning. intros H.
      apply andb_prop in H. destruct H as [H _]. exact (Live c' R H).
    + intros u' R. rewrite smem_remove_keeping. intros H.
      apply andb_prop in H. destruct H as [H _]. exact (Rev u' R H).
  - repeat apply conj; try assumption.
    + intros c' U' R HU' On'. rewrite smem_remove_pruning.
      destruct (String.eqb_spec c' c) as [->|N]; [congruence|].
      rewrite andb_false_r. simpl. rewrite andb_true_r. now apply Sym.
    + intros c' R. rewrite smem_remove_pruning. intros H.
      apply andb_prop in H. destruct H as [H _]. exact (Live c' R H).
Qed.

Lemma members_mdel k k' (m : JsMap JsSet) :
  members k' (mdel k m) = if String.eqb k' k then [] else members k' m.
Proof.
  unfold members. rewrite mget_mdel. destruct (String.eqb k' k); reflexivity.
Qed.

Lemma tidy_inv_disconnect c now s :
  tidy_inv s ->
  enabled (Disconnect c now) s = true ->
  tidy_inv (fst (handle (Disconnect c now) s)).
Proof.
  intros Inv En. simpl in En.
  pose proof (online_of_connected s c) as OnC.
  specialize (fun U => OnC U Inv En).
  destruct Inv as (Sym & Live & Uniq & Rev & Conn & Disj & Tim).
  assert (ConnK : forall c' U', c' <> c -> mget c' (users s) = Some U' ->
            if isOnline U' then smem c' (sdel c (sockets s)) = true
            else smem c' (sadd c (closed s)) = true).
  { intros c' U' N HU'. specialize (Conn c' U' HU').
    destruct (isOnline U').
    - rewrite smem_sdel, Conn. apply String.eqb_neq in N. now rewrite N.
    - rewrite smem_sadd, Conn. apply orb_true_r. }
  assert (DisjK : forall c', smem c' (sadd c (closed s)) = true ->
                             smem c' (sdel c (sockets s)) = false).
  { intros c'. rewrite smem_sadd, smem_sdel.
    destruct (String.eqb_spec c' c) as [->|N]; [reflexivity|].
    simpl. apply Disj. }
  assert (TimK : forall t, In t (timers s) ->
                           smem (snd t) (sadd c (closed s)) = true).
  { intros t Ht. rewrite smem_sadd, (Tim t Ht). apply orb_true_r. }
  unfold handle.
  destruct (mget c (users s)) as [U|] eqn:HU.
  - pose proof (OnC U eq_refl) as On.
    rewrite (disconnect_fst c now (transport_close c s) U HU).
    unfold tidy_inv, room_symmetric_online, in_room, in_user_rooms in *.
    simpl.
    repeat apply conj.
    + intros c' U' R. rewrite mget_mset.
      destruct (String.eqb_spec c' c) as [->|N]; [intros [= <-]; discriminate|].
      intros HU' On'.
      rewrite disconnect_loop_members, members_mdel.
      apply String.eqb_neq in N. rewrite N. simpl. rewrite andb_true_r.
      assert (Nu : String.eqb (id U') (id U) = false).
      { apply String.eqb_neq. intros E. apply String.eqb_neq in N. apply N.
        exact (Uniq c' c U' U HU' HU On' On E). }
      rewrite Nu. now apply Sym.
    + intros c' R. rewrite disconnect_loop_members, mget_mset.
      destruct (String.eqb_spec c' c) as [->|N].
      * simpl. rewrite (Sym c U R HU On).
        destruct (smem R (members (id U) (userRooms s))); discriminate.
      * simpl. rewrite andb_true_r. apply Live.
    + intros c1 c2 U1 U2. rewrite !mget_mset.
      destruct (String.eqb_spec c1 c) as [->|N1];
        [intros [= <-]; discriminate|].
      destruct (String.eqb_spec c2 c) as [->|N2];
        [intros _ [= <-]; discriminate|].
      apply Uniq.
    + intros u' R. rewrite members_mdel.
      destruct (String.eqb_spec u' (id U)) as [->|N]; [discriminate|].
      intros H. destruct (Rev u' R H) as (c0 & U0 & HU0 & On0 & Eid).
      exists c0, U0. rewrite mget_mset.
      destruct (String.eqb_spec c0 c) as [->|N0]; [congruence|].
      repeat split; assumption.
    + intros c' U'. rewrite mget_mset.
      destruct (String.eqb_spec c' c) as [->|N].
      * intros [= <-]. simpl. rewrite smem_sadd, String.eqb_refl.
        reflexivity.
      * now apply ConnK.
    + exact DisjK.
    + intros t Ht. apply in_app_or in Ht. destruct Ht as [Ht|[<-|[]]].
      * now apply TimK.
      * simpl. now rewrite smem_sadd, String.eqb_refl.
  - rewrite (disconnect_fst_unregistered c now (transport_close c s) HU).
    unfold tidy_inv, room_symmetric_online, in_room, in_user_rooms in *.
    simpl.
    repeat apply conj; try assumption.
    intros c' U' HU'. apply ConnK; [congruence | assumption].
Qed.

Lemma tidy_inv_timeout c now s :
  tidy_inv s ->
  enabled (Timeout c now) s = true ->
  tidy_inv (fst (handle (Timeout c now) s)).
Proof.
  intros Inv En. simpl in En.
  apply existsb_exists in En. destruct En as (t & Ht & Et).
  apply andb_prop in Et. destruct Et as [Et _]. apply String.eqb_eq in Et.
  destruct Inv as (Sym & Live & Uniq & Rev & Conn & Disj & Tim).
  assert (Off : forall U, mget c (users s) = Some U -> isOnline U = false).
  { intros U HU. specialize (Conn c U HU).
    destruct (isOnline U); [|reflexivity].
    specialize (Tim t Ht). rewrite Et in Tim. apply Disj in Tim. congruence. }
  unfold tidy_inv, room_symmetric_online, in_room, in_user_rooms in *.
  simpl.
  repeat apply conj; try assumption.
  - intros c' U' R. rewrite mget_mdel.
    destruct (String.eqb c' c); [discriminate | apply Sym].
  - intros c' R H. destruct (Live c' R H) as (U & HU & On).
    exists U. rewrite mget_mdel.
    destruct (String.eqb_spec c' c) as [->|N]; [|now split].
    rewrite (Off U HU) in On. discriminate.
  - intros c1 c2 U1 U2. rewrite !mget_mdel.
    destruct (String.eqb c1 c); [discriminate|].
    destruct (String.eqb c2 c); [discriminate|]. apply Uniq.
  - intros u' R H. destruct (Rev u' R H) as (c0 & U & HU & On & Eid).
    exists c0, U. rewrite mget_mdel.
    destruct (String.eqb_spec c0 c) as [->|N]; [|now repeat split].
    rewrite (Off U HU) in On. discriminate.
  - intros c' U'. rewrite mget_mdel.
    destruct (String.eqb c' c); [discriminate | apply Conn].
  - intros t' Ht'. apply filter_In in Ht'. now apply Tim.
Qed.

Lemma relay_state e s :
  match e with
  | Signal _ _ _ | ChatMessage _ _ _ _ _ | Typing _ _ _
  | GetUsers | GetHealth _ => fst (handle e s) = s
  | _ => True
  end.
Proof.
  destruct e; simpl; trivial.
  - unfold signal. destruct (mget c (users s)); [|reflexivity].
    destruct (find_user _ _); reflexivity.
  - unfold chat_message. destruct (mget c (users s)); [|reflexivity].
    destruct (find_user _ _); reflexivity.
  - unfold typing. destruct (mget c (users s)); [|reflexivity].
    destruct (find_user _ _); reflexivity.
Qed.

Lemma tidy_inv_step e s :
  tidy_inv s -> enabled e s = true -> tidy e s = true ->
  tidy_inv (fst (handle e s)).
Proof.
  intros Inv En Td. destruct e.
  - now apply tidy_inv_connection.
  - now apply tidy_inv_register.
  - now apply tidy_inv_join.
  - now apply tidy_inv_leave.
  - now rewrite (relay_state (Signal c signalData now) s).
  - now rewrite (relay_state (ChatMessage c messageData uuid now now') s).
  - now rewrite (relay_state (Typing c typingData now) s).
  - now apply tidy_inv_disconnect.
  - now apply tidy_inv_timeout.
  - discriminate.
  - exact Inv.
  - exact Inv.
Qed.

Lemma tidy_inv_exec evs :
  forall s s' outs,
    tidy_inv s -> exec tidy evs s = Some (s', outs) -> tidy_inv s'.
Proof.
  induction evs as [|e rest IH]; intros s s' outs Inv H; simpl in H.
  - now injection H as <- _.
  - destruct (enabled e s && tidy e s) eqn:G; [|discriminate].
    apply andb_prop in G. destruct G as [En Td].
    pose proof (tidy_inv_step e s Inv En Td) as Inv1.
    destruct (handle e s) as [s1 o1]. simpl in Inv1.
    destruct (exec tidy rest s1) as [[s2 o2]|] eqn:E; [|discriminate].
    injection H as <- _. exact (IH s1 s2 o2 Inv1 E).
Qed.

(** C4 (as amended): along any run of connect, register, join, leave,
    relay, disconnect and delayed-removal events in which every socket
    registers at most once, with a logical id that no online entry carries,
    and joins rooms only once registered, the two indices agree for every
    online user: the user's socket is in the member set of room [R] exactly
    when [R] is in the room set of the user's logical id.  The socket of an
    offline entry is in no room. *)
Theorem room_symmetry_under_discipline
    (evs : list Event) (s : State) (outs : list Out) :
  exec tidy evs init = Some (s, outs) ->
  (forall c U R,
      mget c (users s) = Some U -> isOnline U = true ->
      in_room c R s = in_user_rooms R (id U) s) /\
  (forall c U R,
      mget c (users s) = Some U -> isOnline U = false ->
      in_room c R s = false).
Proof.
  intros H.
  pose proof (tidy_inv_exec evs init s outs tidy_inv_init H) as Inv.
  destruct Inv as (Sym & Live & _).
  split; [exact Sym|].
  intros c U R HU Off. destruct (in_room c R s) eqn:E; [|reflexivity].
  destruct (Live c R E) as (U' & HU' & On). congruence.
Qed.

Lemma room_symmetry_under_discipline_witness :
  exec tidy tidy_trace init = Some (run tidy_trace init) /\
  in_room "A" "R" (fst (run tidy_trace init))
    = in_user_rooms "R" "a" (fst (run tidy_trace init)) /\
  in_room "B" "R" (fst (run tidy_trace init))
    = in_user_rooms "R" "b" (fst (run tidy_trace init)).
Proof.
  assert (E : exec tidy tidy_trace init
              = Some (fst (run tidy_trace init), snd (run tidy_trace init))).
  { vm_compute. reflexivity. }
  split; [vm_compute; reflexivity|].
  split.
  - apply (proj1 (room_symmetry_under_discipline tidy_trace _ _ E)
             "A" (mkUser "a" "User_A" "A" 10 true) "R");
      vm_compute; reflexivity.
  - apply (proj1 (room_symmetry_under_discipline tidy_trace _ _ E)
             "B" (mkUser "b" "User_B" "B" 20 true) "R");
      vm_compute; reflexivity.
Defined.

(** C4 (as stated) fails: a socket that joins a room before registering, a
    second socket registering with the same logical id, a socket registering
    again under another id, and the offline entry left behind by a
    reconnect each give a registry entry whose socket and room set
    disagree. *)
Lemma room_symmetry_fails :
  (let s := fst (run join_then_register init) in
   exec any_event join_then_register init <> None /\
   mget "c1" (users s) = Some (mkUser "u1" "User_c1" "c1" 10 true) /\
   in_room "c1" "R" s = true /\ in_user_rooms "R" "u1" s = false) /\
  (let s := fst (run shared_id_join init) in
   exec any_event shared_id_join init <> None /\
   mget "c2" (users s) = Some (mkUser "u" "User_c2" "c2" 20 true) /\
   in_room "c2" "R" s = false /\ in_user_rooms "R" "u" s = true) /\
  (let s := fst (run register_twice init) in
   exec any_event register_twice init <> None /\
   mget "c1" (users s) = Some (mkUser "u2" "User_c1" "c1" 20 true) /\
   in_room "c1" "user_u1" s = true /\
   in_user_rooms "user_u1" "u2" s = false) /\
  (let s := fst (run bob_back_trace init) in
   exec any_event bob_back_trace init <> None /\
   mget "c2" (users s) = Some (mkUser "u2" "Bob" "c2" 100 false) /\
   in_room "c2" "user_u2" s = false /\
   in_user_rooms "user_u2" "u2" s = true) /\
  ~ (forall evs s outs,
        exec any_event evs init = Some (s, outs) -> room_symmetric s).
Proof.
  repeat apply conj; try (vm_compute; reflexivity);
    try (vm_compute; discriminate).
  intros H.
  assert (E : exec any_event join_then_register init
              = Some (fst (run join_then_register init),
                      snd (run join_then_register init))).
  { vm_compute. reflexivity. }
  specialize (H _ _ _ E "c1" (mkUser "u1" "User_c1" "c1" 10 true) "R").
  vm_compute in H. specialize (H eq_refl). discriminate.
Qed.

(** * Further properties of the handlers *)

(** ** The periodic sweep, entry by entry *)

Lemma In_mdel {V} k (m : JsMap V) k' v' :
  In (k', v') (mdel k m) <-> k' <> k /\ In (k', v') m.
Proof.
  induction m as [|[k0 v0] r IH]; simpl.
  - tauto.
  - destruct (String.eqb_spec k k0); subst; simpl.
    + rewrite IH. split; [tauto|].
      intros [N [E|H]]; [inversion E; subst; congruence | tauto].
    + rewrite IH. split.
      * intros [E|[N H]]; [inversion E; subst; split; [congruence|now left]
                          | tauto].
      * tauto.
Qed.

Lemma sweep_loop_keeps_rooms_of now u entries :
  (forall k V, In (k, V) entries -> stale now V = true -> id V <> u) ->
  forall us ur, mget u (snd (sweep_loop now entries us ur)) = mget u ur.
Proof.
  induction entries as [|[sid user] rest IH]; intros K us ur; simpl.
  - reflexivity.
  - destruct (stale now user) eqn:St.
    + rewrite IH by (intros k V H; apply (K k); now right).
      rewrite mget_mdel.
      assert (N : id user <> u)
        by (apply (K sid user); [now left | assumption]).
      destruct (String.eqb_spec u (id user)); [congruence | reflexivity].
    + apply IH. intros k V H. apply (K k). now right.
Qed.

Lemma sweep_loop_In now entries :
  forall us ur k U,
    In (k, U) (fst (sweep_loop now entries us ur)) ->
    In (k, U) us /\
    forall k' U', In (k', U') entries -> stale now U' = true -> k <> k'.
Proof.
  induction entries as [|[sid user] rest IH]; intros us ur k U H; simpl in *.
  - split; [assumption | tauto].
  - destruct (stale now user) eqn:St.
    + apply IH in H. destruct H as [H K]. apply In_mdel in H.
      destruct H as [N H]. split; [assumption|].
      intros k' U' [[= <- <-]|HI] S'; [assumption | now apply (K k' U')].
    + apply IH in H. destruct H as [H K]. split; [assumption|].
      intros k' U' [[= <- <-]|HI] S'; [congruence | now apply (K k' U')].
Qed.

Lemma sweep_loop_nothing_stale now entries :
  (forall k U, In (k, U) entries -> stale now U = false) ->
  forall us ur, sweep_loop now entries us ur = (us, ur).
Proof.
  induction entries as [|[sid user] rest IH]; intros K us ur; simpl.
  - reflexivity.
  - rewrite (K sid user) by now left.
    apply IH. intros k U H. apply (K k). now right.
Qed.

(** X1: the sweep removes exactly the stale entries: an entry is gone
    afterwards when it is offline and was last seen more than the threshold
    ago, and is kept unchanged otherwise; at exactly the threshold it is
    kept.  Room sets of logical ids that no stale entry carries are
    untouched, as are the room index, the timers and socket.io's side. *)
Theorem sweep_removes_exactly_stale (s : State) (now : Z) :
  NoDup (mkeys (users s)) ->
  let s' := fst (handle (Sweep now) s) in
  (forall c,
      mget c (users s') =
      match mget c (users s) with
      | Some U => if stale now U then None else Some U
      | None => None
      end) /\
  (forall U, now - lastSeen U <= inactiveThreshold -> stale now U = false) /\
  (forall U, isOnline U = true -> stale now U = false) /\
  (forall u,
      (forall k V, In (k, V) (users s) -> stale now V = true -> id V <> u) ->
      mget u (userRooms s') = mget u (userRooms s)) /\
  rooms s' = rooms s /\ timers s' = timers s /\
  sockets s' = sockets s /\ closed s' = closed s /\ adapter s' = adapter s /\
  snd (handle (Sweep now) s) = [].
Proof.
  intros ND. cbv zeta. simpl. unfold sweep.
  pose proof (sweep_loop_removes now) as Rm.
  pose proof (sweep_loop_keeps now) as Kp.
  pose proof (sweep_loop_keeps_None now (users s) (users s) (userRooms s))
    as [KN _].
  pose proof (fun u => sweep_loop_keeps_rooms_of now u (users s)) as KR.
  destruct (sweep_loop now (users s) (users s) (userRooms s)) as [us ur]
    eqn:E.
  assert (Eu : us = fst (sweep_loop now (users s) (users s) (userRooms s)))
    by now rewrite E.
  assert (Er : ur = snd (sweep_loop now (users s) (users s) (userRooms s)))
    by now rewrite E.
  simpl in *. repeat apply conj; try reflexivity.
  - intros c. destruct (mget c (users s)) as [U|] eqn:HU.
    + destruct (stale now U) eqn:St.
      * rewrite Eu.
        apply (Rm c U (users s) (mget_In _ _ _ HU) St (users s) (userRooms s)).
      * rewrite Eu, Kp; [assumption|].
        intros k V HI StV ->. apply (In_mget _ _ _ ND) in HI. congruence.
    + now apply KN.
  - intros U H. unfold stale.
    replace (inactiveThreshold <? now - lastSeen U) with false
      by (symmetry; apply Z.ltb_ge; exact H).
    apply andb_false_r.
  - intros U On. unfold stale. now rewrite On.
  - intros u K. rewrite Er. now apply KR.
Qed.

Lemma sweep_removes_exactly_stale_witness :
  let s' := fst (handle (Sweep 300001) three_ages) in
  mget "c1" (users s') = None /\
  mget "c2" (users s') = Some (mkUser "u2" "Bob" "c2" 200000 false) /\
  mget "c3" (users s') = Some (mkUser "u3" "Cy" "c3" 0 true) /\
  mget "c1" (users (fst (handle (Sweep 300000) three_ages)))
    = Some (mkUser "u1" "Ann" "c1" 0 false).
Proof.
  assert (ND : NoDup (mkeys (users three_ages))).
  { vm_compute. repeat constructor; simpl; intuition discriminate. }
  destruct (sweep_removes_exactly_stale three_ages 300001 ND) as (A & _).
  destruct (sweep_removes_exactly_stale three_ages 300000 ND) as (B & _).
  cbv zeta. repeat apply conj.
  - rewrite A. reflexivity.
  - rewrite A. reflexivity.
  - rewrite A. reflexivity.
  - rewrite B. reflexivity.
Defined.

(** X2: running the sweep a second time at the same clock reading changes
    nothing: what the first run left has no stale entry. *)
Theorem sweep_twice_is_sweep_once (s : State) (now : Z) :
  fst (handle (Sweep now) (fst (handle (Sweep now) s)))
  = fst (handle (Sweep now) s).
Proof.
  simpl. unfold sweep.
  pose proof (sweep_loop_In now (users s) (users s) (userRooms s)) as HI.
  destruct (sweep_loop now (users s) (users s) (userRooms s)) as [us ur].
  simpl in *.
  rewrite sweep_loop_nothing_stale; [reflexivity|].
  intros k U H. destruct (stale now U) eqn:St; [|reflexivity].
  destruct (HI k U H) as [H0 K]. exfalso. exact (K k U H0 St eq_refl).
Qed.

(** ** Disconnect *)

Lemma disconnect_loop_outs c u rs :
  forall m outs,
    snd (disconnect_loop c u rs m outs) = outs ++ left_notices c u rs.
Proof.
  induction rs as [|r rest IH]; intros m outs; simpl.
  - now rewrite app_nil_r.
  - rewrite IH, <- app_assoc. reflexivity.
Qed.

Lemma disconnect_snd c now s user :
  mget c (users s) = Some user ->
  snd (disconnect c now s) =
  left_notices c user (members (id user) (userRooms s)).
Proof.
  intros H. unfold disconnect, members. rewrite H.
  destruct (mget (id user) (userRooms s)) as [rs|] eqn:E; [|reflexivity].
  pose proof (disconnect_loop_outs c
                (mkUser (id user) (name user) (socketId user) now false)
                rs (rooms s) []) as O.
  destruct (disconnect_loop _ _ rs (rooms s) []) as [rms outs].
  simpl in *. exact O.
Qed.

(** X3: the disconnect of a registered socket emits one user-left-room per
    room of the user's room set, in the order of the set, each to that room
    except the socket itself, and nothing else (in particular no user-list);
    the entry stays in the registry with the same id, name and socket id,
    marked offline and stamped with the clock, and one removal is scheduled
    [grace_delay] later. *)
Theorem disconnect_notifies_each_room
    (s : State) (c : string) (now : Z) (U : User) :
  mget c (users s) = Some U ->
  let r := handle (Disconnect c now) s in
  snd r = left_notices c U (members (id U) (userRooms s)) /\
  mget c (users (fst r))
    = Some (mkUser (id U) (name U) (socketId U) now false) /\
  timers (fst r) = timers s ++ [(now + grace_delay, c)] /\
  mget (id U) (userRooms (fst r)) = None /\
  (forall R, smem R (members (id U) (userRooms s)) = true ->
             in_room c R (fst r) = false).
Proof.
  intros HU. cbv zeta. unfold handle.
  rewrite (disconnect_snd c now (transport_close c s) U HU).
  rewrite (disconnect_fst c now (transport_close c s) U HU). simpl.
  repeat apply conj; try reflexivity.
  - now rewrite mget_mset, String.eqb_refl.
  - now rewrite mget_mdel, String.eqb_refl.
  - intros R HR. unfold in_room. simpl.
    rewrite disconnect_loop_members, String.eqb_refl, HR. simpl.
    apply andb_false_r.
Qed.

Lemma disconnect_notifies_each_room_witness :
  snd (handle (Disconnect "A" 50) abc_in_room) =
  [Emit (ToRoomExcept "user_a" "A")
        (UserLeftRoom (Some "a") (Some "User_A") "user_a");
   Emit (ToRoomExcept "R" "A")
        (UserLeftRoom (Some "a") (Some "User_A") "R")].
Proof.
  destruct (disconnect_notifies_each_room
              abc_in_room "A" 50 (mkUser "a" "User_A" "A" 10 true) eq_refl)
    as (H & _).
  rewrite H. reflexivity.
Defined.

(** X4: a disconnect touches nothing that belongs to another socket: the
    other socket's registry entry and its membership in every room of the
    index are as before.  For a socket without a registry entry the
    handler changes none of the three maps, schedules nothing and emits
    nothing. *)
Theorem disconnect_leaves_other_sockets
    (s : State) (c c' : string) (now : Z) :
  c' <> c ->
  let r := handle (Disconnect c now) s in
  mget c' (users (fst r)) = mget c' (users s) /\
  (forall R, in_room c' R (fst r) = in_room c' R s) /\
  (mget c (users s) = None ->
   users (fst r) = users s /\ rooms (fst r) = rooms s /\
   userRooms (fst r) = userRooms s /\ timers (fst r) = timers s /\
   snd r = []).
Proof.
  intros N. cbv zeta. unfold handle.
  apply String.eqb_neq in N.
  destruct (mget c (users s)) as [U|] eqn:HU.
  - rewrite (disconnect_fst c now (transport_close c s) U HU). simpl.
    repeat apply conj.
    + now rewrite mget_mset, N.
    + intros R. unfold in_room. simpl.
      rewrite disconnect_loop_members, N. simpl. apply andb_true_r.
    + discriminate.
  - rewrite (disconnect_fst_unregistered c now (transport_close c s) HU).
    repeat apply conj; try reflexivity.
    intros _. unfold disconnect. simpl. rewrite HU.
    repeat apply conj; reflexivity.
Qed.

Lemma disconnect_leaves_other_sockets_witness :
  in_room "B" "R" (fst (handle (Disconnect "A" 50) abc_in_room)) = true.
Proof.
  assert (N : "B" <> "A") by discriminate.
  destruct (disconnect_leaves_other_sockets abc_in_room "A" "B" 50 N)
    as (_ & H & _).
  rewrite H. reflexivity.
Defined.

(** X5: when two sockets are registered with the same logical id, the
    disconnect of the first deletes the room set of that id; the disconnect
    of the second then finds no room set, so it emits no user-left-room and
    leaves the second socket in every room of the index it was in. *)
Theorem second_disconnect_cleans_no_room
    (s : State) (c1 c2 : string) (U1 U2 : User) (t1 t2 : Z) :
  c1 <> c2 ->
  mget c1 (users s) = Some U1 ->
  mget c2 (users s) = Some U2 ->
  id U1 = id U2 ->
  let r1 := handle (Disconnect c1 t1) s in
  let r2 := handle (Disconnect c2 t2) (fst r1) in
  snd r2 = [] /\
  rooms (fst r2) = rooms (fst r1) /\
  (forall R, in_room c2 R (fst r2) = in_room c2 R s) /\
  mget c2 (users (fst r2))
    = Some (mkUser (id U2) (name U2) (socketId U2) t2 false).
Proof.
  intros N H1 H2 E. cbv zeta. unfold handle.
  rewrite (disconnect_fst c1 t1 (transport_close c1 s) U1 H1).
  set (s1 := mkState _ _ _ _ _ _ _).
  assert (N' : String.eqb c2 c1 = false)
    by (apply String.eqb_neq; congruence).
  assert (G2 : mget c2 (users (transport_close c2 s1)) = Some U2).
  { unfold s1. simpl. now rewrite mget_mset, N'. }
  assert (M : members (id U2) (userRooms (transport_close c2 s1)) = []).
  { unfold s1. simpl. rewrite members_mdel, E, String.eqb_refl.
    reflexivity. }
  rewrite (disconnect_snd c2 t2 (transport_close c2 s1) U2 G2).
  rewrite (disconnect_fst c2 t2 (transport_close c2 s1) U2 G2).
  rewrite M. simpl. repeat apply conj; try reflexivity.
  - intros R. unfold in_room. simpl.
    rewrite disconnect_loop_members, N'. simpl. apply andb_true_r.
  - now rewrite mget_mset, String.eqb_refl.
Qed.

Lemma second_disconnect_cleans_no_room_witness :
  let s := fst (run (Connection "c1" :: Connection "c2"
                     :: map reg_event same_id_twice) init) in
  in_room "c2" "user_u1"
    (fst (handle (Disconnect "c2" 40) (fst (handle (Disconnect "c1" 30) s))))
  = true.
Proof.
  cbv zeta.
  assert (N : "c1" <> "c2") by discriminate.
  destruct (second_disconnect_cleans_no_room
              (fst (run (Connection "c1" :: Connection "c2"
                         :: map reg_event same_id_twice) init))
              "c1" "c2"
              (mkUser "u1" "Ann" "c1" 10 true)
              (mkUser "u1" "Ann" "c2" 20 true) 30 40 N
              eq_refl eq_refl eq_refl) as (_ & _ & H & _).
  rewrite H. vm_compute. reflexivity.
Defined.

(** ** The relays, case by case *)

Lemma find_user_None target (us : JsMap User) :
  find_user target us = None ->
  forall k U, In (k, U) us -> id U <> target.
Proof.
  unfold find_user, mvalues. intros F k U HI E.
  apply (in_map snd) in HI. simpl in HI.
  pose proof (find_none _ _ F U HI) as G. simpl in G.
  rewrite E, String.eqb_refl in G. discriminate.
Qed.

Lemma find_user_Some target (us : JsMap User) t :
  find_user target us = Some t ->
  id t = target /\ exists k, In (k, t) us.
Proof.
  unfold find_user, mvalues. intros F.
  apply find_some in F. destruct F as [HI E].
  apply String.eqb_eq in E. split; [assumption|].
  apply in_map_iff in HI. destruct HI as ([k U] & <- & HI).
  exists k. exact HI.
Qed.

Lemma find_user_unique (us : JsMap User) k T :
  unique_ids us -> In (k, T) us -> find_user (id T) us = Some T.
Proof.
  unfold find_user, mvalues.
  induction us as [|[k0 U0] r IH]; intros Un HI; [destruct HI|].
  simpl. destruct (String.eqb_spec (id U0) (id T)) as [E|N].
  - assert (P : (k0, U0) = (k, T))
      by (apply Un; [now left | assumption | assumption]).
    now inversion P.
  - destruct HI as [P|HI]; [inversion P; subst; congruence|].
    apply IH; [|assumption].
    intros k1 U1 k2 U2 A B. apply Un; now right.
Qed.

(** With a payload, a signal has three outcomes, none of which changes the
    state: from a socket without a registry entry nothing is emitted; when
    no registry entry, online or offline, carries the target id, the sender
    gets one signal-error with the original payload; otherwise one signal,
    annotated with the sender's id and name and the clock, goes to the
    socket recorded in an entry that carries the target id. *)
Lemma signal_outcomes (s : State) (c : string) (d : SignalData) (now : Z) :
  let r := handle (Signal c d now) s in
  fst r = s /\
  ((mget c (users s) = None /\ snd r = []) \/
   (exists user,
       mget c (users s) = Some user /\
       (forall k U, In (k, U) (users s) -> id U <> sig_to d) /\
       snd r = [Emit (ToSocket c)
                     (SignalError "User not found or offline" (sig_to d) d)])
   \/
   (exists user k t,
       mget c (users s) = Some user /\
       In (k, t) (users s) /\ id t = sig_to d /\
       snd r = [Emit (ToRoom (socketId t))
                     (SignalMsg d (id user) (name user) now)])).
Proof.
  cbv zeta. simpl. unfold signal.
  destruct (mget c (users s)) as [user|] eqn:HU.
  - destruct (find_user (sig_to d) (users s)) as [t|] eqn:F.
    + split; [reflexivity|]. right. right.
      destruct (find_user_Some _ _ _ F) as [E [k HI]].
      exists user, k, t. repeat split; assumption.
    + split; [reflexivity|]. right. left.
      exists user. repeat split. now apply find_user_None.
  - split; [reflexivity|]. left. now split.
Qed.

(** With a payload, a chat message has three outcomes, none of which
    changes the state: from a socket without a registry entry nothing is
    emitted; when no registry entry carries the recipient id, the sender
    gets one message-offline with the fresh message id; otherwise the
    envelope goes to the socket recorded in an entry with the recipient id,
    followed by one message-delivered to the sender with the same message
    id. *)
Lemma chat_outcomes
    (s : State) (c : string) (d : MessageData) (uuid : string)
    (now now' : Z) :
  let r := handle (ChatMessage c d uuid now now') s in
  fst r = s /\
  ((mget c (users s) = None /\ snd r = []) \/
   (exists user,
       mget c (users s) = Some user /\
       (forall k U, In (k, U) (users s) -> id U <> recipientId d) /\
       snd r = [Emit (ToSocket c)
                     (MessageOffline uuid (recipientId d) now')])
   \/
   (exists user k t,
       mget c (users s) = Some user /\
       In (k, t) (users s) /\ id t = recipientId d /\
       snd r =
       [Emit (ToRoom (socketId t))
             (ChatMsg (mkMessage uuid (id user) (name user) (recipientId d)
                                 (content d) now
                                 (js_or (msgType d) "text") "sent"));
        Emit (ToSocket c) (MessageDelivered uuid (recipientId d) now')])).
Proof.
  cbv zeta. simpl. unfold chat_message.
  destruct (mget c (users s)) as [user|] eqn:HU.
  - destruct (find_user (recipientId d) (users s)) as [t|] eqn:F.
    + split; [reflexivity|]. right. right.
      destruct (find_user_Some _ _ _ F) as [E [k HI]].
      exists user, k, t. simpl. rewrite E. repeat split; assumption.
    + split; [reflexivity|]. right. left.
      exists user. repeat split. now apply find_user_None.
  - split; [reflexivity|]. left. now split.
Qed.

(** X8: a typing event never produces feedback to its sender: either
    nothing is emitted (the sender has no registry entry, or no entry
    carries the recipient id), or exactly one typing event goes to the
    socket recorded in an entry with the recipient id; the state is
    unchanged. *)
Theorem typing_outcomes (s : State) (c : string) (d : TypingData) (now : Z) :
  let r := handle (Typing c d now) s in
  fst r = s /\
  ((snd r = [] /\
    (mget c (users s) = None \/
     forall k U, In (k, U) (users s) -> id U <> typ_recipientId d)) \/
   (exists user k t,
       mget c (users s) = Some user /\
       In (k, t) (users s) /\ id t = typ_recipientId d /\
       snd r = [Emit (ToRoom (socketId t))
                     (TypingMsg (id user) (name user) (typ_isTyping d) now)])).
Proof.
  cbv zeta. simpl. unfold typing.
  destruct (mget c (users s)) as [user|] eqn:HU.
  - destruct (find_user (typ_recipientId d) (users s)) as [t|] eqn:F.
    + split; [reflexivity|]. right.
      destruct (find_user_Some _ _ _ F) as [E [k HI]].
      exists user, k, t. repeat split; assumption.
    + split; [reflexivity|]. left. split; [reflexivity|]. right.
      now apply find_user_None.
  - split; [reflexivity|]. left. split; [reflexivity|]. now left.
Qed.

(** X9: when no two registry entries carry the same logical id and every
    entry is stored under the socket id it records, the three relays address
    the socket under which the target user is registered: a signal, a chat
    message and a typing event for the id of the entry of socket [k] are
    emitted to [k]. *)
Theorem relays_reach_registered_socket
    (s : State) (c k : string) (user T : User) :
  unique_ids (users s) ->
  keyed_by_socket (users s) ->
  mget c (users s) = Some user ->
  mget k (users s) = Some T ->
  (forall d now, sig_to d = id T ->
     snd (handle (Signal c d now) s) =
     [Emit (ToRoom k) (SignalMsg d (id user) (name user) now)]) /\
  (forall d uuid now now', recipientId d = id T ->
     snd (handle (ChatMessage c d uuid now now') s) =
     [Emit (ToRoom k)
           (ChatMsg (mkMessage uuid (id user) (name user) (id T)
                               (content d) now
                               (js_or (msgType d) "text") "sent"));
      Emit (ToSocket c) (MessageDelivered uuid (id T) now')]) /\
  (forall d now, typ_recipientId d = id T ->
     snd (handle (Typing c d now) s) =
     [Emit (ToRoom k)
           (TypingMsg (id user) (name user) (typ_isTyping d) now)]).
Proof.
  intros Un [ND K] HU HT.
  pose proof (mget_In _ _ _ HT) as HI.
  pose proof (find_user_unique (users s) k T Un HI) as F.
  pose proof (K k T HI) as Sk.
  repeat apply conj.
  - intros d now E. simpl. unfold signal. now rewrite HU, E, F, Sk.
  - intros d uuid now now' E. simpl. unfold chat_message.
    now rewrite HU, E, F, Sk.
  - intros d now E. simpl. unfold typing. now rewrite HU, E, F, Sk.
Qed.

Lemma relays_reach_registered_socket_witness :
  snd (handle (Signal "c1" (mkSignalData "u2" "offer" "sdp") 200)
              ann_and_bob)
  = [Emit (ToRoom "c2")
          (SignalMsg (mkSignalData "u2" "offer" "sdp") "u1" "Ann" 200)].
Proof.
  assert (Un : unique_ids (users ann_and_bob)).
  { intros k1 U1 k2 U2 A B E. vm_compute in A, B.
    destruct A as [A|[A|[]]]; destruct B as [B|[B|[]]];
      inversion A; inversion B; subst; try reflexivity;
      vm_compute in E; discriminate. }
  assert (Ky : keyed_by_socket (users ann_and_bob)).
  { split.
    - vm_compute. repeat constructor; simpl; intuition discriminate.
    - intros k U A. vm_compute in A.
      destruct A as [A|[A|[]]]; inversion A; reflexivity. }
  destruct (relays_reach_registered_socket
              ann_and_bob "c1" "c2"
              (mkUser "u1" "Ann" "c1" 10 true)
              (mkUser "u2" "Bob" "c2" 20 true)
              Un Ky eq_refl eq_refl) as (H & _).
  apply (H (mkSignalData "u2" "offer" "sdp") 200). reflexivity.
Defined.

(** ** Registration, join and leave, pair by pair *)

Lemma mkeys_mset_order {V} k (v : V) (m : JsMap V) :
  mkeys (mset k v m) = if mhas k m then mkeys m else mkeys m ++ [k].
Proof.
  unfold mhas. induction m as [|[k0 v0] r IH]; simpl; [reflexivity|].
  destruct (String.eqb_spec k k0); subst; simpl; [reflexivity|].
  rewrite IH. destruct (mget k r); reflexivity.
Qed.

Lemma mset_mset {V} k (v v' : V) (m : JsMap V) :
  mset k v (mset k v' m) = mset k v m.
Proof.
  induction m as [|[k0 v0] r IH]; simpl.
  - now rewrite String.eqb_refl.
  - destruct (String.eqb_spec k k0); subst; simpl.
    + now rewrite String.eqb_refl.
    + apply String.eqb_neq in n. rewrite n. now rewrite IH.
Qed.

Lemma mdel_mset_fresh {V} k (v : V) (m : JsMap V) :
  mget k m = None -> mdel k (mset k v m) = m.
Proof.
  induction m as [|[k0 v0] r IH]; simpl.
  - now rewrite String.eqb_refl.
  - destruct (String.eqb_spec k k0); [discriminate|].
    intros H. simpl. apply String.eqb_neq in n. rewrite n.
    now rewrite IH.
Qed.

Lemma sdel_absent x s : smem x s = false -> sdel x s = s.
Proof.
  unfold smem, sdel. induction s as [|a r IH]; simpl; [reflexivity|].
  destruct (String.eqb_spec x a); simpl; [discriminate|].
  intros H. now rewrite IH.
Qed.

Lemma sdel_sadd_fresh x s : smem x s = false -> sdel x (sadd x s) = s.
Proof.
  intros H. unfold sadd. rewrite H. unfold sdel.
  rewrite filter_app. simpl. rewrite String.eqb_refl. simpl.
  rewrite app_nil_r. now apply sdel_absent.
Qed.

(** X10: registering a socket stores its entry under the socket id, online,
    with the requested id and name or their defaults, and leaves every other
    socket's entry as it was; a socket that was already registered keeps its
    place in the registry and the registry does not grow, a new socket goes
    last.  The socket is afterwards in its personal room, the personal room
    is in the room set of its id, and the handler emits user-registered to
    the socket followed by one user-list, with one element per registry
    entry, that shows the id online. *)
Theorem register_user_effect
    (s : State) (c : string) (d : UserData) (uuid : string) (now : Z) :
  let r := handle (RegisterUser c d uuid now) s in
  let user := mkUser (js_or (userId d) uuid)
                     (js_or (reqName d)
                            (String.append "User_" (substring 0 6 c)))
                     c now true in
  let personalRoom := String.append "user_" (id user) in
  mget c (users (fst r)) = Some user /\
  (forall c', c' <> c -> mget c' (users (fst r)) = mget c' (users s)) /\
  mkeys (users (fst r)) =
    (if mhas c (users s) then mkeys (users s) else mkeys (users s) ++ [c]) /\
  msize (users (fst r)) =
    (msize (users s) + (if mhas c (users s) then 0 else 1))%nat /\
  in_room c personalRoom (fst r) = true /\
  in_user_rooms personalRoom (id user) (fst r) = true /\
  exists l,
    snd r = [Emit (ToSocket c)
                  (UserRegistered (id user) (name user) personalRoom);
             Emit ToAll (UserList l)] /\
    shown_online (id user) l = true /\
    length l = msize (users (fst r)).
Proof.
  cbv zeta. simpl.
  set (user := mkUser _ _ c now true).
  repeat apply conj.
  - now rewrite mget_mset, String.eqb_refl.
  - intros c' N. rewrite mget_mset. apply String.eqb_neq in N.
    now rewrite N.
  - apply mkeys_mset_order.
  - unfold msize. rewrite <- !(length_map fst).
    change (map fst (mset c user (users s)))
      with (mkeys (mset c user (users s))).
    rewrite mkeys_mset_order. unfold mkeys.
    destruct (mhas c (users s)); [lia|].
    rewrite length_app. simpl. lia.
  - unfold in_room. simpl.
    now rewrite in_room_add, !String.eqb_refl.
  - unfold in_user_rooms. simpl.
    now rewrite in_room_add, !String.eqb_refl.
  - eexists. repeat apply conj.
    + reflexivity.
    + change (js_or (userId d) uuid) with (id user).
      apply shown_online_values; [|reflexivity].
      apply mget_In_values with (k := c).
      now rewrite mget_mset, String.eqb_refl.
    + unfold msize, mvalues. now rewrite !length_map.
Qed.

(** X11: join-room adds exactly one pair to the room index, the socket in
    the room, and, when the socket is registered, exactly one pair to the
    reverse index, the room in the room set of the socket's logical id; for
    an unregistered socket the reverse index is untouched.  The registry and
    the timers are untouched, and the notification is addressed to the room
    except the joining socket. *)
Theorem join_room_effect (s : State) (c roomId : string) (cb : bool) :
  let r := handle (JoinRoom c roomId cb) s in
  (forall c' R,
      in_room c' R (fst r) =
      (String.eqb R roomId && String.eqb c' c) || in_room c' R s) /\
  (forall u R,
      in_user_rooms R u (fst r) =
      match mget c (users s) with
      | Some U =>
          (String.eqb u (id U) && String.eqb R roomId)
          || in_user_rooms R u s
      | None => in_user_rooms R u s
      end) /\
  users (fst r) = users s /\ timers (fst r) = timers s /\
  (forall x p, In (Emit x p) (snd r) -> x = ToRoomExcept roomId c) /\
  smem c (recipients (fst r) (ToRoomExcept roomId c)) = false.
Proof.
  cbv zeta. simpl. repeat apply conj; try reflexivity.
  - intros c' R. unfold in_room. simpl. apply in_room_add.
  - intros u R. unfold in_user_rooms. simpl.
    destruct (mget c (users s)); [apply in_room_add | reflexivity].
  - intros x p H. apply in_app_or in H. destruct H as [H|H].
    + destruct cb; simpl in H; [destruct H as [H|[]]; discriminate
                                | destruct H].
    + destruct H as [H|[]]. now inversion H.
  - now rewrite smem_sdel, String.eqb_refl.
Qed.

(** X12: leave-room removes exactly one pair from the room index and, for a
    registered socket, exactly one pair from the reverse index; it never
    removes a key of the reverse index, so a room set that becomes empty
    stays there (unlike a room of the room index).  The registry and the
    timers are untouched. *)
Theorem leave_room_effect (s : State) (c roomId : string) (cb : bool) :
  let r := handle (LeaveRoom c roomId cb) s in
  (forall c' R,
      in_room c' R (fst r) =
      in_room c' R s && negb (String.eqb R roomId && String.eqb c' c)) /\
  (forall u R,
      in_user_rooms R u (fst r) =
      match mget c (users s) with
      | Some U =>
          in_user_rooms R u s
          && negb (String.eqb u (id U) && String.eqb R roomId)
      | None => in_user_rooms R u s
      end) /\
  (forall u, mhas u (userRooms (fst r)) = mhas u (userRooms s)) /\
  users (fst r) = users s /\ timers (fst r) = timers s.
Proof.
  cbv zeta. simpl. repeat apply conj; try reflexivity.
  - intros c' R. unfold in_room. simpl. apply smem_remove_pruning.
  - intros u R. unfold in_user_rooms. simpl.
    destruct (mget c (users s)); [apply smem_remove_keeping | reflexivity].
  - intros u. unfold mhas.
    destruct (mget c (users s)) as [U|]; [|reflexivity].
    rewrite mget_remove_keeping.
    destruct (String.eqb_spec u (id U)) as [->|N]; [|reflexivity].
    destruct (mget (id U) (userRooms s)); reflexivity.
Qed.

(** X13: a join-room followed by a leave-room of the same room, by a socket
    that was not in the room and whose logical id (if the socket is
    registered) did not have the room in its room set, gives back the room
    index exactly as it was (provided the room, if it existed, was not
    empty), and the same memberships in the reverse index. *)
Theorem join_then_leave_restores
    (s : State) (c roomId : string) (cb cb' : bool) :
  in_room c roomId s = false ->
  mget roomId (rooms s) <> Some [] ->
  (forall U, mget c (users s) = Some U ->
             in_user_rooms roomId (id U) s = false) ->
  let s2 := fst (handle (LeaveRoom c roomId cb')
                        (fst (handle (JoinRoom c roomId cb) s))) in
  rooms s2 = rooms s /\
  (forall u R, in_user_rooms R u s2 = in_user_rooms R u s) /\
  users s2 = users s.
Proof.
  intros NR NE NU. cbv zeta. simpl. repeat apply conj; try reflexivity.
  - unfold in_room, members in NR.
    unfold remove_pruning. rewrite mget_add_to_set, String.eqb_refl.
    unfold add_to_set, mhas, members.
    destruct (mget roomId (rooms s)) as [st|] eqn:E.
    + rewrite E. rewrite (sdel_sadd_fresh _ _ NR).
      destruct st as [|a st']; [now elim NE|]. simpl.
      rewrite mset_mset. now apply mset_same.
    + rewrite mget_mset, String.eqb_refl, mset_mset. simpl.
      rewrite String.eqb_refl. simpl.
      now apply mdel_mset_fresh.
  - intros u R. unfold in_user_rooms in *. simpl.
    destruct (mget c (users s)) as [U|] eqn:HU; [|reflexivity].
    rewrite smem_remove_keeping, in_room_add.
    specialize (NU U eq_refl).
    destruct (String.eqb_spec u (id U)) as [->|N]; simpl.
    + destruct (String.eqb_spec R roomId) as [->|N']; simpl.
      * rewrite NU. reflexivity.
      * apply andb_true_r.
    + apply andb_true_r.
Qed.

Lemma join_then_leave_restores_witness :
  rooms (fst (handle (LeaveRoom "c1" "S" true)
                     (fst (handle (JoinRoom "c1" "S" true)
                                  one_member_room))))
  = rooms one_member_room.
Proof.
  assert (NE : mget "S" (rooms one_member_room) <> Some [])
    by (vm_compute; discriminate).
  assert (NU : forall U, mget "c1" (users one_member_room) = Some U ->
                         in_user_rooms "S" (id U) one_member_room = false).
  { intros U H. vm_compute in H. injection H as <-. reflexivity. }
  exact (proj1 (join_then_leave_restores one_member_room "c1" "S" true true
                  eq_refl NE NU)).
Defined.

(** ** Invariants of all runs *)

Lemma keyed_mdel k (us : JsMap User) :
  keyed_by_socket us -> keyed_by_socket (mdel k us).
Proof.
  intros [ND K]. split.
  - now apply NoDup_mdel.
  - intros k' U H. apply In_mdel in H. now apply K.
Qed.

Lemma keyed_sweep_loop now entries :
  forall us ur, keyed_by_socket us ->
                keyed_by_socket (fst (sweep_loop now entries us ur)).
Proof.
  induction entries as [|[sid user] rest IH]; intros us ur H; simpl.
  - assumption.
  - destruct (stale now user); apply IH; [now apply keyed_mdel | assumption].
Qed.

Lemma keyed_handle e s :
  keyed_by_socket (users s) -> keyed_by_socket (users (fst (handle e s))).
Proof.
  intros H. destruct e; try exact H.
  - now apply keyed_register.
  - now rewrite (relay_state (Signal c signalData now) s).
  - now rewrite (relay_state (ChatMessage c messageData uuid now now') s).
  - now rewrite (relay_state (Typing c typingData now) s).
  - unfold handle. destruct (mget c (users s)) as [U|] eqn:HU.
    + rewrite (disconnect_fst c now (transport_close c s) U HU). simpl.
      destruct H as [ND K]. split.
      * now apply NoDup_mset.
      * intros k V HI. apply In_mset in HI. destruct HI as [[= -> ->]|HI].
        -- simpl. apply K. now apply mget_In.
        -- now apply K.
    + now rewrite (disconnect_fst_unregistered c now (transport_close c s) HU).
  - simpl. now apply keyed_mdel.
  - simpl. unfold sweep.
    pose proof (keyed_sweep_loop now (users s) (users s) (userRooms s) H) as G.
    destruct (sweep_loop now (users s) (users s) (userRooms s)). exact G.
Qed.

(** X14: after any sequence of events from the start of the server, the
    registry holds at most one entry per socket id, and every entry is
    stored under the socket id it records (so [socketId] of the entry found
    for a socket is that socket). *)
Theorem registry_keyed_by_socket (evs : list Event) :
  let s := fst (run evs init) in
  NoDup (mkeys (users s)) /\
  (forall c U, mget c (users s) = Some U -> socketId U = c) /\
  (forall c, (live_on_socket c s <= 1)%nat).
Proof.
  cbv zeta.
  assert (G : forall evs s, keyed_by_socket (users s) ->
                            keyed_by_socket (users (fst (run evs s)))).
  { clear evs. induction evs as [|e rest IH]; intros s H; [assumption|].
    rewrite run_cons_fst. apply IH. now apply keyed_handle. }
  assert (K : keyed_by_socket (users (fst (run evs init)))).
  { apply G. split; [constructor | intros k U []]. }
  repeat apply conj.
  - apply K.
  - intros c U H. apply (proj2 K). now apply mget_In.
  - intros c. now apply at_most_one_entry_per_socket.
Qed.

Lemma conn_inv_init : conn_inv init.
Proof.
  unfold conn_inv. simpl.
  repeat apply conj; intros; try discriminate; try tauto. constructor.
Qed.

Lemma sweep_loop_sub now c U entries :
  forall us ur,
    mget c (fst (sweep_loop now entries us ur)) = Some U ->
    mget c us = Some U.
Proof.
  induction entries as [|[sid user] rest IH]; intros us ur H; simpl in H.
  - assumption.
  - destruct (stale now user).
    + apply IH in H. rewrite mget_mdel in H.
      destruct (String.eqb c sid); [discriminate | assumption].
    + now apply IH in H.
Qed.

Lemma pending_sockets_filter (keep : Z * string -> bool)
    (ts : list (Z * string)) :
  NoDup (map snd ts) -> NoDup (map snd (filter keep ts)).
Proof.
  intros ND. induction ts as [|t r IH]; simpl in *; [constructor|].
  inversion ND as [|? ? Hn ND']; subst.
  destruct (keep t); simpl; [|auto].
  constructor; [|auto].
  intros HI. apply Hn. apply in_map_iff in HI.
  destruct HI as (x & E & HI). apply filter_In in HI.
  apply in_map_iff. exists x. tauto.
Qed.

Lemma NoDup_snoc {A} (x : A) (l : list A) :
  NoDup l -> ~ In x l -> NoDup (l ++ [x]).
Proof.
  induction l as [|a r IH]; simpl; intros ND N.
  - constructor; [tauto | constructor].
  - inversion ND as [|? ? Hn ND']; subst.
    constructor; [|apply IH; tauto].
    intros HI. apply in_app_or in HI. destruct HI as [HI|[E|[]]].
    + tauto.
    + apply N. now left.
Qed.

Lemma conn_inv_step e s :
  conn_inv s -> enabled e s = true -> conn_inv (fst (handle e s)).
Proof.
  intros (Conn & Disj & Tim & ND) En. destruct e.
  - simpl in En. apply andb_prop in En. destruct En as [E1 E2].
    apply negb_true_iff in E1. apply negb_true_iff in E2.
    unfold conn_inv. simpl. repeat apply conj; try assumption.
    + intros c' U HU. specialize (Conn c' U HU).
      destruct (isOnline U); [|assumption].
      rewrite smem_sadd, Conn. apply orb_true_r.
    + intros c' Hc. rewrite smem_sadd, (Disj c' Hc).
      destruct (String.eqb_spec c' c); subst; [congruence | reflexivity].
  - simpl in En. unfold conn_inv. simpl.
    repeat apply conj; try assumption.
    intros c' U. rewrite mget_mset.
    destruct (String.eqb_spec c' c) as [->|N]; [|apply Conn].
    intros [= <-]. exact En.
  - unfold conn_inv. simpl. repeat apply conj; assumption.
  - unfold conn_inv. simpl. repeat apply conj; assumption.
  - rewrite (relay_state (Signal c signalData now) s).
    repeat apply conj; assumption.
  - rewrite (relay_state (ChatMessage c messageData uuid now now') s).
    repeat apply conj; assumption.
  - rewrite (relay_state (Typing c typingData now) s).
    repeat apply conj; assumption.
  - simpl in En.
    assert (ConnK : forall c' U', c' <> c -> mget c' (users s) = Some U' ->
              if isOnline U' then smem c' (sdel c (sockets s)) = true
              else smem c' (sadd c (closed s)) = true).
    { intros c' U' N HU'. specialize (Conn c' U' HU').
      destruct (isOnline U').
      - rewrite smem_sdel, Conn. apply String.eqb_neq in N. now rewrite N.
      - rewrite smem_sadd, Conn. apply orb_true_r. }
    assert (DisjK : forall c', smem c' (sadd c (closed s)) = true ->
                               smem c' (sdel c (sockets s)) = false).
    { intros c'. rewrite smem_sadd, smem_sdel.
      destruct (String.eqb_spec c' c) as [->|N]; [reflexivity|].
      simpl. apply Disj. }
    assert (TimK : forall t, In t (timers s) ->
                             smem (snd t) (sadd c (closed s)) = true).
    { intros t Ht. rewrite smem_sadd, (Tim t Ht). apply orb_true_r. }
    unfold handle. destruct (mget c (users s)) as [U|] eqn:HU.
    + rewrite (disconnect_fst c now (transport_close c s) U HU).
      unfold conn_inv. simpl. repeat apply conj.
      * intros c' U'. rewrite mget_mset.
        destruct (String.eqb_spec c' c) as [->|N]; [|now apply ConnK].
        intros [= <-]. simpl. now rewrite smem_sadd, String.eqb_refl.
      * exact DisjK.
      * intros t Ht. apply in_app_or in Ht. destruct Ht as [Ht|[<-|[]]].
        -- now apply TimK.
        -- simpl. now rewrite smem_sadd, String.eqb_refl.
      * rewrite map_app. simpl. apply NoDup_snoc; [assumption|].
        intros HI. apply in_map_iff in HI. destruct HI as (t & E & HI).
        specialize (Tim t HI). rewrite E in Tim.
        apply Disj in Tim. congruence.
    + rewrite (disconnect_fst_unregistered c now (transport_close c s) HU).
      unfold conn_inv. simpl. repeat apply conj; try assumption.
      intros c' U' HU'. apply ConnK; [congruence | assumption].
  - unfold conn_inv. simpl. repeat apply conj; try assumption.
    + intros c' U'. rewrite mget_mdel.
      destruct (String.eqb c' c); [discriminate | apply Conn].
    + intros t Ht. apply filter_In in Ht. now apply Tim.
    + now apply pending_sockets_filter.
  - unfold conn_inv. simpl. unfold sweep.
    pose proof (fun c U => sweep_loop_sub now c U (users s) (users s)
                             (userRooms s)) as Sub.
    destruct (sweep_loop now (users s) (users s) (userRooms s)) as [us ur].
    simpl in *. repeat apply conj; try assumption.
    intros c U HU. apply Conn. now apply Sub.
  - repeat apply conj; assumption.
  - repeat apply conj; assumption.
Qed.

Lemma conn_inv_exec evs :
  forall s s' outs,
    conn_inv s -> exec any_event evs s = Some (s', outs) -> conn_inv s'.
Proof.
  induction evs as [|e rest IH]; intros s s' outs Inv H; simpl in H.
  - now injection H as <- _.
  - destruct (enabled e s && any_event e s) eqn:G; [|discriminate].
    apply andb_prop in G. destruct G as [En _].
    pose proof (conn_inv_step e s Inv En) as Inv1.
    destruct (handle e s) as [s1 o1]. simpl in Inv1.
    destruct (exec any_event rest s1) as [[s2 o2]|] eqn:E; [|discriminate].
    injection H as <- _. exact (IH s1 s2 o2 Inv1 E).
Qed.

(** X15: along every run the runtime can deliver, the [isOnline] flag of a
    registry entry follows its socket: the entry is online exactly when the
    socket is connected and offline exactly when the socket has closed; and
    every pending delayed removal is for a closed socket, with at most one
    pending per socket. *)
Theorem online_flag_follows_connection
    (evs : list Event) (s : State) (outs : list Out) :
  exec any_event evs init = Some (s, outs) ->
  (forall c U, mget c (users s) = Some U ->
     (isOnline U = true <-> smem c (sockets s) = true) /\
     (isOnline U = false <-> smem c (closed s) = true)) /\
  (forall t, In t (timers s) -> smem (snd t) (closed s) = true) /\
  NoDup (map snd (timers s)).
Proof.
  intros H.
  destruct (conn_inv_exec evs init s outs conn_inv_init H)
    as (Conn & Disj & Tim & ND).
  repeat apply conj; try assumption.
  intros c U HU. specialize (Conn c U HU).
  destruct (isOnline U) eqn:On.
  - split; split; intros G; try reflexivity; try assumption;
      try discriminate.
    apply Disj in G. congruence.
  - split; split; intros G; try reflexivity; try assumption;
      try discriminate.
    apply Disj in Conn. congruence.
Qed.

Lemma online_flag_follows_connection_witness :
  smem "c2" (closed bob_back) = true /\ smem "c3" (sockets bob_back) = true.
Proof.
  assert (E : exec any_event bob_back_trace init
              = Some (bob_back, snd (run bob_back_trace init))).
  { vm_compute. reflexivity. }
  destruct (online_flag_follows_connection bob_back_trace bob_back _ E)
    as (H & _).
  split.
  - apply (H "c2" (mkUser "u2" "Bob" "c2" 100 false)); reflexivity.
  - apply (H "c3" (mkUser "u2" "Bob" "c3" 1100 true)); reflexivity.
Defined.

(** X16: along a run in which the periodic sweep does not run, every socket
    registers at most once, with a logical id that no online entry carries,
    and joins rooms only once registered, the disconnect of a registered
    socket followed by its delayed removal leaves no trace of the socket: no
    registry entry, no membership in any room of the index, no room set for
    its logical id, and no pending removal. *)
Theorem disconnect_and_removal_leave_no_trace
    (evs : list Event) (s : State) (outs : list Out)
    (c : string) (U : User) (t1 t2 : Z) :
  exec tidy evs init = Some (s, outs) ->
  smem c (sockets s) = true ->
  mget c (users s) = Some U ->
  let s1 := fst (handle (Disconnect c t1) s) in
  let s2 := fst (handle (Timeout c t2) s1) in
  mget c (users s2) = None /\
  (forall R, in_room c R s2 = false) /\
  mget (id U) (userRooms s2) = None /\
  (forall t, In t (timers s2) -> snd t <> c).
Proof.
  intros H En HU s1 s2.
  pose proof (tidy_inv_exec evs init s outs tidy_inv_init H) as Inv.
  pose proof (tidy_inv_disconnect c t1 s Inv En) as Inv1.
  fold s1 in Inv1. destruct Inv1 as (_ & Live & _).
  assert (G1 : mget c (users s1)
               = Some (mkUser (id U) (name U) (socketId U) t1 false)).
  { unfold s1, handle.
    rewrite (disconnect_fst c t1 (transport_close c s) U HU). simpl.
    now rewrite mget_mset, String.eqb_refl. }
  assert (R1 : mget (id U) (userRooms s1) = None).
  { unfold s1, handle.
    rewrite (disconnect_fst c t1 (transport_close c s) U HU). simpl.
    now rewrite mget_mdel, String.eqb_refl. }
  unfold s2. simpl. repeat apply conj.
  - now rewrite mget_mdel, String.eqb_refl.
  - intros R. change (in_room c R s1 = false).
    destruct (in_room c R s1) eqn:E; [|reflexivity].
    destruct (Live c R E) as (V & HV & On). rewrite G1 in HV.
    injection HV as <-. discriminate.
  - exact R1.
  - intros t Ht. apply filter_In in Ht. destruct Ht as [_ Ht].
    apply negb_true_iff in Ht. now apply String.eqb_neq in Ht.
Qed.

Lemma disconnect_and_removal_leave_no_trace_witness :
  let s := fst (run abc_in_room_trace init) in
  in_room "C" "R"
    (fst (handle (Timeout "C" 5050) (fst (handle (Disconnect "C" 50) s))))
  = false.
Proof.
  assert (E : exec tidy abc_in_room_trace init
              = Some (fst (run abc_in_room_trace init),
                      snd (run abc_in_room_trace init))).
  { vm_compute. reflexivity. }
  destruct (disconnect_and_removal_leave_no_trace
              abc_in_room_trace _ _ "C" (mkUser "c" "User_C" "C" 30 true)
              50 5050 E eq_refl eq_refl) as (_ & H & _).
  exact (H "R").
Defined.

(** ** The room index and socket.io's rooms *)

Lemma close_members x y k ks :
  forall m : JsMap JsSet,
    smem y (members k (fold_left (fun a k0 => remove_pruning k0 x a) ks m)) =
    smem y (members k m)
    && negb (existsb (String.eqb k) ks && String.eqb y x).
Proof.
  induction ks as [|k0 r IH]; intros m; simpl.
  - now rewrite andb_true_r.
  - rewrite IH, smem_remove_pruning.
    destruct (smem y (members k m)), (String.eqb k k0),
      (existsb (String.eqb k) r), (String.eqb y x); reflexivity.
Qed.

Lemma members_key y k (m : JsMap JsSet) :
  smem y (members k m) = true -> existsb (String.eqb k) (mkeys m) = true.
Proof.
  intros H. change (smem k (mkeys m) = true). apply smem_true_iff.
  destruct (mget k m) as [st|] eqn:E.
  - apply mget_In in E. change k with (fst (k, st)). now apply in_map.
  - unfold members in H. rewrite E in H. discriminate.
Qed.

Lemma adapter_after_close c y k s :
  smem y (members k (adapter (transport_close c s))) =
  smem y (members k (adapter s)) && negb (String.eqb y c).
Proof.
  simpl. rewrite close_members.
  destruct (smem y (members k (adapter s))) eqn:E; [|reflexivity].
  now rewrite (members_key _ _ _ E).
Qed.

Lemma in_room_after_disconnect c now s c' R :
  in_room c' R (fst (disconnect c now (transport_close c s))) = true ->
  in_room c' R s = true.
Proof.
  unfold in_room. destruct (mget c (users s)) as [U|] eqn:HU.
  - rewrite (disconnect_fst c now (transport_close c s) U HU). simpl.
    rewrite disconnect_loop_members. intros H.
    apply andb_prop in H. tauto.
  - now rewrite (disconnect_fst_unregistered c now (transport_close c s) HU).
Qed.

Lemma mirror_inv_init : mirror_inv init.
Proof.
  unfold mirror_inv, in_room. simpl.
  repeat apply conj; intros; discriminate.
Qed.

Lemma mirror_add k x (s s' : State) :
  mirror_inv s ->
  smem x (sockets s) = true ->
  rooms s' = add_to_set k x (rooms s) ->
  adapter s' = add_to_set k x (adapter s) ->
  sockets s' = sockets s -> closed s' = closed s ->
  mirror_inv s'.
Proof.
  intros (M1 & M2 & M3 & M4) Hx Er Ea Es Ec.
  unfold mirror_inv, in_room in *. rewrite Er, Ea, Es, Ec.
  repeat apply conj; intros c R; rewrite ?in_room_add.
  - intros H. apply orb_prop in H. destruct H as [H|H].
    + left. now rewrite H.
    + destruct (M1 c R H) as [G|G]; [left; rewrite G; apply orb_true_r
                                    | now right].
  - intros H Hc. apply orb_prop in H. destruct H as [H|H].
    + now rewrite H.
    + rewrite (M2 c R H Hc). apply orb_true_r.
  - intros H. apply orb_prop in H. destruct H as [H|H].
    + apply andb_prop in H. destruct H as [_ H].
      apply String.eqb_eq in H. now subst.
    + exact (M3 c R H).
  - intros H. apply orb_prop in H. destruct H as [H|H].
    + apply andb_prop in H. destruct H as [_ H].
      apply String.eqb_eq in H. subst. now left.
    + exact (M4 c R H).
Qed.

Lemma mirror_inv_step e s :
  mirror_inv s -> enabled e s = true -> mirror_inv (fst (handle e s)).
Proof.
  intros Inv En. destruct e.
  - destruct Inv as (M1 & M2 & M3 & M4).
    simpl in En. apply andb_prop in En. destruct En as [E1 E2].
    apply negb_true_iff in E1. apply negb_true_iff in E2.
    unfold mirror_inv, in_room in *. simpl.
    repeat apply conj; intros c' R; rewrite ?in_room_add, ?smem_sadd.
    + intros H. apply orb_prop in H. destruct H as [H|H].
      * apply andb_prop in H. destruct H as [H1 H2].
        apply String.eqb_eq in H1, H2. right. congruence.
      * exact (M1 c' R H).
    + intros H Hc. apply orb_prop in Hc. destruct Hc as [Hc|Hc].
      * apply String.eqb_eq in Hc. subst c'.
        destruct (M4 c R H); congruence.
      * rewrite (M2 c' R H Hc). apply orb_true_r.
    + intros H. apply orb_prop in H. destruct H as [H|H].
      * apply andb_prop in H. destruct H as [_ H]. now rewrite H.
      * rewrite (M3 c' R H). apply orb_true_r.
    + intros H. destruct (M4 c' R H) as [G|G]; [left | now right].
      rewrite G. apply orb_true_r.
  - simpl in En.
    apply (mirror_add
             (String.append "user_" (js_or (userId userData) uuid)) c s);
      try assumption; reflexivity.
  - simpl in En.
    apply (mirror_add roomId c s); try assumption; reflexivity.
  - destruct Inv as (M1 & M2 & M3 & M4).
    unfold mirror_inv, in_room in *. simpl.
    repeat apply conj; intros c' R; rewrite ?smem_remove_pruning.
    + intros H. apply andb_prop in H. destruct H as [H N].
      destruct (M1 c' R H) as [G|G]; [left | now right].
      now rewrite G, N.
    + intros H Hc. apply andb_prop in H. destruct H as [H N].
      now rewrite (M2 c' R H Hc), N.
    + intros H. apply andb_prop in H. destruct H as [H _].
      exact (M3 c' R H).
    + intros H. apply andb_prop in H. destruct H as [H _].
      exact (M4 c' R H).
  - now rewrite (relay_state (Signal c signalData now) s).
  - now rewrite (relay_state (ChatMessage c messageData uuid now now') s).
  - now rewrite (relay_state (Typing c typingData now) s).
  - destruct Inv as (M1 & M2 & M3 & M4).
    pose proof (in_room_after_disconnect c now s) as Sub.
    pose proof (disconnect_leaves_other_sockets s c) as Oth.
    unfold handle in *.
    assert (A : adapter (fst (disconnect c now (transport_close c s)))
                = adapter (transport_close c s)).
    { destruct (mget c (users s)) as [U|] eqn:HU.
      - now rewrite (disconnect_fst c now (transport_close c s) U HU).
      - now rewrite (disconnect_fst_unregistered c now
                       (transport_close c s) HU). }
    assert (S : sockets (fst (disconnect c now (transport_close c s)))
                = sdel c (sockets s)).
    { destruct (mget c (users s)) as [U|] eqn:HU.
      - now rewrite (disconnect_fst c now (transport_close c s) U HU).
      - now rewrite (disconnect_fst_unregistered c now
                       (transport_close c s) HU). }
    assert (C : closed (fst (disconnect c now (transport_close c s)))
                = sadd c (closed s)).
    { destruct (mget c (users s)) as [U|] eqn:HU.
      - now rewrite (disconnect_fst c now (transport_close c s) U HU).
      - now rewrite (disconnect_fst_unregistered c now
                       (transport_close c s) HU). }
    unfold mirror_inv. rewrite A, S, C.
    repeat apply conj; intros c' R; rewrite ?adapter_after_close,
      ?smem_sdel, ?smem_sadd.
    + intros H. apply andb_prop in H. destruct H as [H N].
      apply negb_true_iff in N.
      assert (N' : c' <> c) by now apply String.eqb_neq.
      destruct (Oth c' now N') as (_ & G & _).
      destruct (M1 c' R H) as [G1|G1]; [left | now right].
      now rewrite G.
    + intros H Hc. apply andb_prop in Hc. destruct Hc as [N Hc].
      rewrite N. apply Sub in H. rewrite (M2 c' R H Hc). reflexivity.
    + intros H. apply andb_prop in H. destruct H as [H N].
      now rewrite N, (M3 c' R H).
    + intros H. apply Sub in H.
      destruct (String.eqb_spec c' c) as [->|N]; [now right|].
      simpl. exact (M4 c' R H).
  - exact Inv.
  - destruct Inv as (M1 & M2 & M3 & M4).
    unfold mirror_inv, in_room in *. simpl. rewrite rooms_sweep.
    unfold sweep.
    destruct (sweep_loop now (users s) (users s) (userRooms s)).
    simpl. repeat apply conj; assumption.
  - exact Inv.
  - exact Inv.
Qed.

Lemma mirror_inv_exec evs :
  forall s s' outs,
    mirror_inv s -> exec any_event evs s = Some (s', outs) -> mirror_inv s'.
Proof.
  induction evs as [|e rest IH]; intros s s' outs Inv H; simpl in H.
  - now injection H as <- _.
  - destruct (enabled e s && any_event e s) eqn:G; [|discriminate].
    apply andb_prop in G. destruct G as [En _].
    pose proof (mirror_inv_step e s Inv En) as Inv1.
    destruct (handle e s) as [s1 o1]. simpl in Inv1.
    destruct (exec any_event rest s1) as [[s2 o2]|] eqn:E; [|discriminate].
    injection H as <- _. exact (IH s1 s2 o2 Inv1 E).
Qed.

(** X17: along every run the runtime can deliver, the room index mirrors
    socket.io's rooms: a connected socket is in room [R] of the index
    exactly when socket.io has it in room [R], apart from the room socket.io
    names after the socket itself; so a [socket.to(R)] emission reaches
    exactly the connected sockets of the index of [R] other than the
    sender, when [R] is not the id of a connected socket. *)
Theorem room_index_mirrors_socket_rooms
    (evs : list Event) (s : State) (outs : list Out) :
  exec any_event evs init = Some (s, outs) ->
  (forall c R, smem c (sockets s) = true -> R <> c ->
     in_room c R s = smem c (members R (adapter s))) /\
  (forall c R, smem c (members R (adapter s)) = true ->
     smem c (sockets s) = true) /\
  (forall c x R, smem R (sockets s) = false ->
     smem x (recipients s (ToRoomExcept R c)) =
     negb (String.eqb x c) && in_room x R s && smem x (sockets s)).
Proof.
  intros H.
  destruct (mirror_inv_exec evs init s outs mirror_inv_init H)
    as (M1 & M2 & M3 & M4).
  repeat apply conj.
  - intros c R Hc N. destruct (in_room c R s) eqn:E.
    + symmetry. now apply M2.
    + destruct (smem c (members R (adapter s))) eqn:F; [|reflexivity].
      destruct (M1 c R F); congruence.
  - exact M3.
  - intros c x R HR. simpl. rewrite smem_sdel.
    destruct (String.eqb x c); simpl; [reflexivity|].
    destruct (smem x (members R (adapter s))) eqn:F.
    + pose proof (M3 x R F) as Hx. rewrite Hx.
      destruct (M1 x R F) as [G|G]; [now rewrite G|].
      subst. congruence.
    + destruct (in_room x R s) eqn:E; [|reflexivity].
      destruct (smem x (sockets s)) eqn:Hx; [|reflexivity].
      rewrite (M2 x R E Hx) in F. discriminate.
Qed.

Lemma room_index_mirrors_socket_rooms_witness :
  smem "B" (recipients abc_in_room (ToRoomExcept "R" "A")) = true.
Proof.
  assert (E : exec any_event abc_in_room_trace init
              = Some (abc_in_room, snd (run abc_in_room_trace init))).
  { vm_compute. reflexivity. }
  destruct (room_index_mirrors_socket_rooms abc_in_room_trace abc_in_room _ E)
    as (_ & _ & H).
  rewrite H; reflexivity.
Defined.

(** ** Registering again *)

(** X18: a second register-user on the same socket that resolves to the same
    logical id overrides the first completely: the state is the one a single
    registration with the second payload and clock would have produced, so
    nothing of the first call (name, time) survives and no membership is
    duplicated. *)
Theorem register_again_overrides
    (s : State) (c : string) (d1 d2 : UserData) (u1 u2 : string)
    (t1 t2 : Z) :
  js_or (userId d1) u1 = js_or (userId d2) u2 ->
  fst (handle (RegisterUser c d2 u2 t2)
              (fst (handle (RegisterUser c d1 u1 t1) s)))
  = fst (handle (RegisterUser c d2 u2 t2) s).
Proof.
  intros E. simpl. rewrite E, mset_mset, !add_to_set_idem. reflexivity.
Qed.

Lemma register_again_overrides_witness :
  mget "c1"
    (users (fst (handle (RegisterUser "c1"
                           (mkUserData (Some "u1") (Some "Ann")) "y" 50)
                        (fst (handle (RegisterUser "c1"
                                        (mkUserData (Some "u1") None) "x" 10)
                                     one_user)))))
  = Some (mkUser "u1" "Ann" "c1" 50 true).
Proof.
  rewrite (register_again_overrides
             one_user "c1" (mkUserData (Some "u1") None)
             (mkUserData (Some "u1") (Some "Ann")) "x" "y" 10 50 eq_refl).
  reflexivity.
Defined.

(** ** The views of the registry *)

(** X19: the user-list sent to a new connection, the user-list of
    [broadcastUserList], the body of GET /users and the user count of GET
    /health are views of the same registry: the three lists have one element
    per registry entry, offline entries included, in registration order,
    with the same id, name and lastSeen; the user-lists carry each entry's
    own [isOnline] while GET /users says [true] for every element; the
    health count is the length of the lists.  The two HTTP handlers leave
    the state as it is. *)
Theorem registry_views_agree (s : State) (c : string) (now : Z) :
  exists l1 l2 l3 : list UserInfo,
    snd (handle (Connection c) s) = [Emit (ToSocket c) (UserList l1)] /\
    broadcastUserList (users s) = Emit ToAll (UserList l2) /\
    handle GetUsers s = (s, [HttpUsers l3]) /\
    handle (GetHealth now) s =
      (s, [HttpHealth (length l3) (length (mkeys (rooms s))) now]) /\
    l1 = l2 /\
    map info_core l1 = map info_core l3 /\
    map info_core l1 =
      map (fun u => (id u, name u, lastSeen u)) (mvalues (users s)) /\
    map info_isOnline l1 = map isOnline (mvalues (users s)) /\
    map info_isOnline l3 = map (fun _ => true) (mvalues (users s)) /\
    length l1 = length (mkeys (users s)).
Proof.
  eexists. eexists. eexists. repeat apply conj; try reflexivity.
  - simpl. unfold get_health, msize, mkeys, mvalues.
    now rewrite !length_map.
  - now rewrite !map_map.
  - now rewrite !map_map.
  - now rewrite !map_map.
  - now rewrite !map_map.
  - unfold mkeys, mvalues. now rewrite !length_map.
Qed.

(** ** The signal and chat listeners, with their error branch *)

(** X6: the signal listener, for a payload that is missing or has the shape
    [{to, type, ...}], has exactly four outcomes, none of which changes the
    state: from a socket without a registry entry nothing is emitted,
    whatever the payload; from a registered socket without payload, one
    signal-error with the exception's message and neither target id nor
    payload goes to the sender; when no registry entry, online or offline,
    carries the target id, one signal-error with the target id and the
    original payload goes to the sender; otherwise exactly one signal,
    annotated with the sender's id and name and the clock, is emitted to
    the socket recorded in an entry that carries the target id, and no
    signal-error is sent. *)
Theorem signal_listener_outcomes
    (s : State) (c : string) (payload : option SignalData) (msg : string)
    (now : Z) :
  let r := signal_listener c payload msg now s in
  fst r = s /\
  ((mget c (users s) = None /\ snd r = []) \/
   (exists user,
       mget c (users s) = Some user /\ payload = None /\
       snd r = [Emit (ToSocket c) (SignalErrorCaught msg None)]) \/
   (exists user d,
       mget c (users s) = Some user /\ payload = Some d /\
       (forall k U, In (k, U) (users s) -> id U <> sig_to d) /\
       snd r = [Emit (ToSocket c)
                     (SignalError "User not found or offline" (sig_to d) d)])
   \/
   (exists user d k t,
       mget c (users s) = Some user /\ payload = Some d /\
       In (k, t) (users s) /\ id t = sig_to d /\
       snd r = [Emit (ToRoom (socketId t))
                     (SignalMsg d (id user) (name user) now)])).
Proof.
  cbv zeta. destruct payload as [d|]; simpl.
  - destruct (signal_outcomes s c d now) as [St O]. simpl in St, O.
    split; [exact St|].
    destruct O as [[HU E]|[(user & HU & K & E)|(user & k & t & HU & HI & Ei & E)]].
    + left. now split.
    + right. right. left. exists user, d. repeat split; assumption.
    + right. right. right. exists user, d, k, t. repeat split; assumption.
  - destruct (mget c (users s)) as [user|] eqn:HU.
    + split; [reflexivity|]. right. left. exists user. repeat split.
    + split; [reflexivity|]. left. now split.
Qed.

(** X7: the chat-message listener, for a payload that is missing or has the
    shape [{recipientId, content, type?}], has exactly four outcomes, none
    of which changes the state: from a socket without a registry entry
    nothing is emitted, whatever the payload; from a registered socket
    without payload, one message-error with the exception's message goes to
    the sender; when no registry entry carries the recipient id, one
    message-offline with the fresh message id goes to the sender; otherwise
    the envelope (fresh id, sender's id and name, content, type defaulting
    to "text", status "sent") is emitted to the socket recorded in an entry
    with the recipient id, followed by one message-delivered to the sender
    with the same message id. *)
Theorem chat_listener_outcomes
    (s : State) (c : string) (payload : option MessageData)
    (uuid msg : string) (now now' : Z) :
  let r := chat_listener c payload uuid msg now now' s in
  fst r = s /\
  ((mget c (users s) = None /\ snd r = []) \/
   (exists user,
       mget c (users s) = Some user /\ payload = None /\
       snd r = [Emit (ToSocket c) (MessageError msg None)]) \/
   (exists user d,
       mget c (users s) = Some user /\ payload = Some d /\
       (forall k U, In (k, U) (users s) -> id U <> recipientId d) /\
       snd r = [Emit (ToSocket c)
                     (MessageOffline uuid (recipientId d) now')])
   \/
   (exists user d k t,
       mget c (users s) = Some user /\ payload = Some d /\
       In (k, t) (users s) /\ id t = recipientId d /\
       snd r =
       [Emit (ToRoom (socketId t))
             (ChatMsg (mkMessage uuid (id user) (name user) (recipientId d)
                                 (content d) now
                                 (js_or (msgType d) "text") "sent"));
        Emit (ToSocket c) (MessageDelivered uuid (recipientId d) now')])).
Proof.
  cbv zeta. destruct payload as [d|]; simpl.
  - destruct (chat_outcomes s c d uuid now now') as [St O]. simpl in St, O.
    split; [exact St|].
    destruct O as [[HU E]|[(user & HU & K & E)|(user & k & t & HU & HI & Ei & E)]].
    + left. now split.
    + right. right. left. exists user, d. repeat split; assumption.
    + right. right. right. exists user, d, k, t. repeat split; assumption.
  - destruct (mget c (users s)) as [user|] eqn:HU.
    + split; [reflexivity|]. right. left. exists user. repeat split.
    + split; [reflexivity|]. left. now split.
Qed.
